(** * media_toolkit: job execution and backend dispatch

    A shallow embedding of [media_toolkit.py]: the settings loader, the
    yt-dlp option builder and download job, the conversion dispatch with its
    three adapters, and the entry points of the window that submit jobs.

    Python values are modelled as follows.
    - [str] is [string], the bytes of its UTF-8 encoding; the literals of the
      source are kept byte for byte.  [str.strip] removes the white space of
      Unicode, character by character; [str.lower] and [str.upper] are
      modelled on the ASCII range, which is where every literal they are
      compared with lives.
    - A [dict] with string keys is a [gmap string _].
    - An exception is a value of [Exception] (every exception the source
      handles is caught by [except Exception]); a computation is a function
      from the [World] to a [Result] and the new [World], so that effects
      performed before a [raise] persist, as in Python.
    - The external tools (mimetypes, pathlib, Pillow, pypandoc, ffmpeg,
      yt-dlp) are fields of an environment [Env]; what they are asked to do
      is recorded in the [World].
    - What can fail before a job has entered its [try] (the lookup of
      [settings] when it is not a dictionary, [os.getcwd]) is a [Host]. *)

From Stdlib Require Import String Ascii ZArith Bool Lia.
From stdpp Require Import base option list gmap strings.

Open Scope string_scope.
Open Scope Z_scope.

Set Warnings "-register-all".

(** ** Python string primitives *)

Module PyStr.

Definition code (c : ascii) : Z := Z.of_nat (nat_of_ascii c).

(** A [str] is held as the bytes of its UTF-8 encoding.  [chars s] cuts
    the bytes into the characters they encode, by the length that the first
    byte of each announces; a byte that cannot start a character stands alone. *)
Fixpoint chars (s : string) : list string :=
  match s with
  | EmptyString => []
  | String a r =>
      if code a <? 192 then String a EmptyString :: chars r
      else
        match r with
        | EmptyString => [s]
        | String b r1 =>
            if code a <? 224 then String a (String b EmptyString) :: chars r1
            else
              match r1 with
              | EmptyString => [s]
              | String c r2 =>
                  if code a <? 240
                  then String a (String b (String c EmptyString)) :: chars r2
                  else
                    match r2 with
                    | EmptyString => [s]
                    | String d r3 =>
                        String a (String b (String c (String d EmptyString))) :: chars r3
                    end
              end
        end
  end.

(** A continuation byte of UTF-8. *)
Definition continues (c : ascii) : bool := (128 <=? code c) && (code c <? 192).

(** [ord(ch)] for one character; [-1] for bytes that encode none. *)
Definition ord (ch : string) : Z :=
  match ch with
  | String a EmptyString => if code a <? 128 then code a else -1
  | String a (String b EmptyString) =>
      let n := (code a - 192) * 64 + (code b - 128) in
      if continues b && (128 <=? n) then n else -1
  | String a (String b (String c EmptyString)) =>
      let n := (code a - 224) * 4096 + (code b - 128) * 64 + (code c - 128) in
      if continues b && continues c && (2048 <=? n) then n else -1
  | String a (String b (String c (String d EmptyString))) =>
      let n := (code a - 240) * 262144 + (code b - 128) * 4096
               + (code c - 128) * 64 + (code d - 128) in
      if continues b && continues c && continues d && (65536 <=? n) then n else -1
  | _ => -1
  end.

(** [str.isspace] on one character, by its code point: TAB to CR, FS to US
    and the space; NEL and the no-break space; the Ogham space mark; EN QUAD
    to HAIR SPACE; the line and paragraph separators; the narrow no-break
    space, the medium mathematical space and the ideographic space. *)
Definition isspace (n : Z) : bool :=
  ((9 <=? n) && (n <=? 13)) || ((28 <=? n) && (n <=? 32))
  || (n =? 133) || (n =? 160) || (n =? 5760)
  || ((8192 <=? n) && (n <=? 8202))
  || (n =? 8232) || (n =? 8233) || (n =? 8239) || (n =? 8287) || (n =? 12288).

Definition isspace_char (ch : string) : bool := isspace (ord ch).

Fixpoint dropwhile {A} (f : A -> bool) (l : list A) : list A :=
  match l with
  | [] => []
  | x :: r => if f x then dropwhile f r else l
  end.

(** ["".join(l)] *)
Definition join_chars (l : list string) : string := fold_right String.append EmptyString l.

(** [s.strip()]: the white space is dropped at the front, then at the back. *)
Definition strip (s : string) : string :=
  join_chars (rev (dropwhile isspace_char (rev (dropwhile isspace_char (chars s))))).

(** [s] has white space only. *)
Definition all_space (s : string) : bool := forallb isspace_char (chars s).

Definition lower_char (c : ascii) : ascii :=
  if (65 <=? code c) && (code c <=? 90)
  then ascii_of_nat (nat_of_ascii c + 32) else c.

Definition upper_char (c : ascii) : ascii :=
  if (97 <=? code c) && (code c <=? 122)
  then ascii_of_nat (nat_of_ascii c - 32) else c.

Fixpoint map_chars (f : ascii -> ascii) (s : string) : string :=
  match s with
  | EmptyString => EmptyString
  | String c r => String (f c) (map_chars f r)
  end.

(** [s.lower()] and [s.upper()] *)
Definition lower : string -> string := map_chars lower_char.
Definition upper : string -> string := map_chars upper_char.

(** [s.startswith(p)] *)
Definition startswith (s p : string) : bool := String.prefix p s.

(** [s.endswith(c)] for a one-character suffix *)
Fixpoint endswith_char (s : string) (c : ascii) : bool :=
  match s with
  | EmptyString => false
  | String d EmptyString => Ascii.eqb d c
  | String _ r => endswith_char r c
  end.

(** [s.replace(c, "")] for a one-character pattern *)
Fixpoint remove_char (c : ascii) (s : string) : string :=
  match s with
  | EmptyString => EmptyString
  | String d r => if Ascii.eqb d c then remove_char c r else String d (remove_char c r)
  end.

(** [c in s] for a one-character [c] *)
Fixpoint has_char (c : ascii) (s : string) : bool :=
  match s with
  | EmptyString => false
  | String d r => Ascii.eqb d c || has_char c r
  end.

(** [x in s] for strings: substring test *)
Fixpoint contains (s x : string) : bool :=
  String.prefix x s ||
  match s with
  | EmptyString => false
  | String _ r => contains r x
  end.

(** Truthiness of a string: [bool(s)] *)
Definition truthy (s : string) : bool :=
  match s with EmptyString => false | _ => true end.

(** [s in (t1, ..., tn)] *)
Definition in_tuple (s : string) (ts : list string) : bool :=
  existsb (String.eqb s) ts.

End PyStr.

(** ** [os.path] (the POSIX flavour) *)

Module OsPath.
Import PyStr.

Definition sep : ascii := "/"%char.
Definition extsep : ascii := "."%char.

(** [p.rfind(c)], counting from offset [i]; [-1] when [c] does not occur. *)
Fixpoint rfind_from (c : ascii) (p : string) (i : Z) : Z :=
  match p with
  | EmptyString => -1
  | String d r =>
      let k := rfind_from c r (i + 1) in
      if 0 <=? k then k else if Ascii.eqb d c then i else -1
  end.

Definition rfind (c : ascii) (p : string) : Z := rfind_from c p 0.

Definition slice_from (p : string) (i : Z) : string :=
  String.substring (Z.to_nat i) (String.length p - Z.to_nat i)%nat p.

Definition slice_to (p : string) (i : Z) : string :=
  String.substring 0 (Z.to_nat i) p.

(** [posixpath.basename]: [i = p.rfind('/') + 1; return p[i:]] *)
Definition basename (p : string) : string := slice_from p (rfind sep p + 1).

Fixpoint rstrip_sep (s : string) : string :=
  match s with
  | EmptyString => EmptyString
  | String c r =>
      match rstrip_sep r with
      | EmptyString => if Ascii.eqb c sep then EmptyString else String c EmptyString
      | r' => String c r'
      end
  end.

Fixpoint all_sep (s : string) : bool :=
  match s with
  | EmptyString => true
  | String c r => Ascii.eqb c sep && all_sep r
  end.

(** [posixpath.dirname] *)
Definition dirname (p : string) : string :=
  let head := slice_to p (rfind sep p + 1) in
  if truthy head && negb (all_sep head) then rstrip_sep head else head.

(** The loop of [genericpath._splitext] that skips leading dots: is there
    a character other than the dot in [p[i:dot]]? *)
Fixpoint other_than_dot (p : string) (n : nat) : bool :=
  match n, p with
  | O, _ => false
  | S n', String c r => negb (Ascii.eqb c extsep) || other_than_dot r n'
  | S _, EmptyString => false
  end.

(** [posixpath.splitext] *)
Definition splitext (p : string) : string * string :=
  let sepIndex := rfind sep p in
  let dotIndex := rfind extsep p in
  if (sepIndex <? dotIndex)
     && other_than_dot (slice_from p (sepIndex + 1)) (Z.to_nat (dotIndex - (sepIndex + 1)))
  then (slice_to p dotIndex, slice_from p dotIndex)
  else (p, EmptyString).

(** [posixpath.join(a, b)] *)
Definition join (a b : string) : string :=
  if startswith b "/" then b
  else if negb (truthy a) || endswith_char a sep then a +:+ b
  else a +:+ "/" +:+ b.

End OsPath.

(** ** Exceptions and results *)

(** A Python exception object: its class and [str(e)]. *)
Record Exception := mkExc { exc_class : string; exc_str : string }.

Inductive Result (A : Type) : Type :=
| Ok (a : A)
| Raise (e : Exception).
Arguments Ok {A} a.
Arguments Raise {A} e.

Definition is_ok {A} (r : Result A) : bool :=
  match r with Ok _ => true | Raise _ => false end.

Definition TypeError (msg : string) : Exception := mkExc "TypeError" msg.
Definition RuntimeError (msg : string) : Exception := mkExc "RuntimeError" msg.
Definition AttributeError (msg : string) : Exception := mkExc "AttributeError" msg.

(** ** Settings persistence *)

(** What [json.load] can return. *)
Inductive JVal : Type :=
| JNull
| JBool (b : bool)
| JNum (literal : string)
| JStr (s : string)
| JList (l : list JVal)
| JDict (d : gmap string JVal).

Definition JVal_eqb_str (v : JVal) (k : string) : bool :=
  match v with JStr s => String.eqb s k | _ => false end.

(** [k in s] for a string [k] *)
Definition py_in (k : string) (s : JVal) : Result bool :=
  match s with
  | JDict d => Ok (bool_decide (is_Some (d !! k)))
  | JList l => Ok (existsb (fun v => JVal_eqb_str v k) l)
  | JStr t => Ok (PyStr.contains t k)
  | JNull => Raise (TypeError "argument of type 'NoneType' is not iterable")
  | JBool _ => Raise (TypeError "argument of type 'bool' is not iterable")
  | JNum _ => Raise (TypeError "argument of type 'int' is not iterable")
  end.

(** [s[k] = v] for a string [k] *)
Definition py_setitem (s : JVal) (k : string) (v : JVal) : Result JVal :=
  match s with
  | JDict d => Ok (JDict (<[k := v]> d))
  | JList _ => Raise (TypeError "list indices must be integers or slices, not str")
  | JStr _ => Raise (TypeError "'str' object does not support item assignment")
  | JNull => Raise (TypeError "'NoneType' object does not support item assignment")
  | JBool _ => Raise (TypeError "'bool' object does not support item assignment")
  | JNum _ => Raise (TypeError "'int' object does not support item assignment")
  end.

Section Settings.

(** [str(Path.home() / "Downloads")] *)
Variable home_downloads : string.

(** [DEFAULT_SETTINGS], in the order of its items *)
Definition DEFAULT_SETTINGS : list (string * JVal) :=
  [ ("ffmpeg_path", JStr ""); ("default_output", JStr home_downloads) ].

(** [DEFAULT_SETTINGS.copy()] *)
Definition DEFAULT_SETTINGS_copy : JVal :=
  JDict (list_to_map DEFAULT_SETTINGS).

(** [for k, v in items: if k not in s: s[k] = v] *)
Fixpoint fill_defaults (items : list (string * JVal)) (s : JVal) : Result JVal :=
  match items with
  | [] => Ok s
  | (k, v) :: rest =>
      match py_in k s with
      | Raise e => Raise e
      | Ok true => fill_defaults rest s
      | Ok false =>
          match py_setitem s k v with
          | Raise e => Raise e
          | Ok s' => fill_defaults rest s'
          end
      end
  end.

(** The settings file as [load_settings] meets it: absent ([None]), or
    present, in which case opening it and [json.load] either raise or
    yield a JSON value. *)
Definition SettingsFile : Type := option (Result JVal).

Definition load_settings (file : SettingsFile) : JVal :=
  match file with
  | Some loaded =>
      match loaded with
      | Ok s =>
          match fill_defaults DEFAULT_SETTINGS s with
          | Ok s' => s'
          | Raise _ => DEFAULT_SETTINGS_copy
          end
      | Raise _ => DEFAULT_SETTINGS_copy
      end
  | None => DEFAULT_SETTINGS_copy
  end.

(** A settings dictionary that has every key of [DEFAULT_SETTINGS]. *)
Definition has_default_keys (v : JVal) : Prop :=
  exists d, v = JDict d /\
    forall k, k ∈ (DEFAULT_SETTINGS).*1 -> is_Some (d !! k).

End Settings.

(** ** Events, emitters and the world *)

(** The argument of [progress.emit]: a float literal of the source
    ([0.0], [80.0], [100.0]) or [float(p)] for a percentage string [p] that
    yt-dlp reported and that [float] accepts. *)
Inductive Percent : Type :=
| PctLit (n : Z)
| PctFloat (p : string).

(** The two signals of [Emitter]. *)
Inductive Event : Type :=
| LogLine (text : string)
| Progress (percent : Percent).

Inductive Tab : Type := Youtube | Converter | Instagram.

(** An [Emitter] whose signals are connected to the log and the progress
    bar of one tab. *)
Record Emitter := mkEmitter { em_tab : Tab }.

(** Pillow images, as the expressions the source builds them with. *)
Inductive PImage : Type :=
| ImOpen (path mode : string)                         (* Image.open(path).convert(mode) *)
| ImNew (mode : string) (size_of : PImage) (color : Z * Z * Z)
                                                      (* Image.new(mode, im.size, color) *)
| ImBand (im : PImage) (index : nat)                  (* im.split()[index] *)
| ImPaste (background im mask : PImage).              (* background.paste(im, mask=mask) *)

(** The values of a yt-dlp options dictionary. *)
Inductive OptVal : Type :=
| OStr (s : string)
| OBool (b : bool)
| ONone
| OList (l : list OptVal)
| ODict (d : gmap string OptVal)
| OHook (em : Emitter).                               (* the closure [p_hook] *)

Definition is_None (v : OptVal) : bool :=
  match v with ONone => true | _ => false end.

(** The four backends a job can reach. *)
Inductive Adapter : Type := RemoteFetcher | RasterImage | Document | AudioVideo.

(** A file written by a backend, recorded as the request that produced it;
    for an image, [sizes] are the resolutions that the file holds (none for
    the formats that hold one image). *)
Inductive Artifact : Type :=
| PillowFile (format : string) (im : PImage) (sizes : list (Z * Z))
| PandocFile (infile target_format : string)
| FfmpegFile (cmd : list string).

(** The thread targets that the window hands to [run_threaded]. *)
Inductive Target : Type :=
| Tyt_download (url out fmt : string) (emitter : Emitter) (cookie : option string)
| Tconvert_generic_wrapper (infile outfile target : string) (emitter : Emitter)
| Tinsta_worker (u o : string) (c : option string) (em : Emitter).

Record World := mkWorld {
  events  : list Event;              (* what emitters have emitted, in order *)
  invoked : list Adapter;            (* backends entered, in order *)
  outputs : list (string * Artifact);(* files written, in order *)
  stdout  : list string;             (* lines printed *)
  threads : list Target;             (* threads started by run_threaded *)
  gui_log : list (Tab * string);     (* lines appended to a log by the window itself *)
}.

Definition empty_world : World := mkWorld [] [] [] [] [] [].

(** ** Computations *)

Definition Py (A : Type) : Type := World -> Result A * World.

Definition ret {A} (a : A) : Py A := fun w => (Ok a, w).

Definition bind {A B} (m : Py A) (f : A -> Py B) : Py B :=
  fun w => match m w with
           | (Ok a, w') => f a w'
           | (Raise e, w') => (Raise e, w')
           end.

Definition raise {A} (e : Exception) : Py A := fun w => (Raise e, w).

(** [try: body  except Exception as e: handler e] *)
Definition try_except {A} (body : Py A) (handler : Exception -> Py A) : Py A :=
  fun w => match body w with
           | (Ok a, w') => (Ok a, w')
           | (Raise e, w') => handler e w'
           end.

Declare Scope py_scope.
Delimit Scope py_scope with py.
Notation "x <- m ;; k" := (bind m (fun x => k))
  (at level 20, m at level 99, k at level 200, only parsing) : py_scope.
Notation "m ;; k" := (bind m (fun _ => k))
  (at level 100, k at level 200, only parsing, right associativity) : py_scope.
Open Scope py_scope.

Definition emit (ev : Event) : Py unit :=
  fun w => (Ok tt, mkWorld (events w ++ [ev]) (invoked w) (outputs w) (stdout w)
                           (threads w) (gui_log w)).

(** [em.log.emit(text)] and [em.progress.emit(p)] *)
Definition log_emit (em : Emitter) (text : string) : Py unit := emit (LogLine text).
Definition progress_emit (em : Emitter) (p : Percent) : Py unit := emit (Progress p).

(** [if emitter: body] *)
Definition if_emitter (emitter : option Emitter) (body : Emitter -> Py unit) : Py unit :=
  match emitter with Some em => body em | None => ret tt end.

(** Attribute access on an emitter that may be [None]. *)
Definition attr (emitter : option Emitter) : Py Emitter :=
  match emitter with
  | Some em => ret em
  | None => raise (mkExc "AttributeError" "'NoneType' object has no attribute 'log'")
  end.

Definition enter (a : Adapter) : Py unit :=
  fun w => (Ok tt, mkWorld (events w) (invoked w ++ [a]) (outputs w) (stdout w)
                           (threads w) (gui_log w)).

Definition write_file (path : string) (a : Artifact) : Py unit :=
  fun w => (Ok tt, mkWorld (events w) (invoked w) (outputs w ++ [(path, a)]) (stdout w)
                           (threads w) (gui_log w)).

Definition print (line : string) : Py unit :=
  fun w => (Ok tt, mkWorld (events w) (invoked w) (outputs w) (stdout w ++ [line])
                           (threads w) (gui_log w)).

Definition start_thread (t : Target) : Py unit :=
  fun w => (Ok tt, mkWorld (events w) (invoked w) (outputs w) (stdout w)
                           (threads w ++ [t]) (gui_log w)).

Definition log_append (tab : Tab) (text : string) : Py unit :=
  fun w => (Ok tt, mkWorld (events w) (invoked w) (outputs w) (stdout w)
                           (threads w) (gui_log w ++ [(tab, text)])).

(** An external call that either raises or returns. *)
Definition external {A} (r : Result A) : Py A := fun w => (r, w).

Definition check (err : option Exception) : Py unit :=
  match err with Some e => raise e | None => ret tt end.

Fixpoint for_each {A} (l : list A) (body : A -> Py unit) : Py unit :=
  match l with
  | [] => ret tt
  | x :: r => body x ;; for_each r body
  end.

(** ** The environment: settings and external tools *)

(** What a status dictionary of yt-dlp has under a key: nothing, [None],
    or a string. *)
Inductive HookVal : Type :=
| HAbsent
| HNone
| HStr (s : string).

(** A status dictionary that yt-dlp passes to a progress hook. *)
Record HookDict := mkHookDict {
  hd_status : HookVal;              (* under "status" *)
  hd_percent_str : HookVal;         (* under "_percent_str" *)
  hd_filename : HookVal;            (* under "filename" *)
}.

(** [d.get(key, fallback)]: the value under the key, [None] included; the
    fallback when the key is absent. *)
Definition hook_get (v : HookVal) (fallback : string) : option string :=
  match v with
  | HAbsent => Some fallback
  | HNone => None
  | HStr s => Some s
  end.

(** [f"{x}"] for a string or [None] *)
Definition format_value (x : option string) : string := default "None" x.

(** The module [PIL.Image], when it could be imported. *)
Record Pillow := mkPillow {
  (* Image.open(path).convert(mode) raises *)
  open_error : string -> string -> option Exception;
  (* im.save(outfile, format=format, sizes=sizes) raises *)
  save_error : PImage -> string -> string -> list (Z * Z) -> option Exception;
  (* the resolutions that the ICO encoder writes for im.save(outfile,
     format="ICO", sizes=sizes) *)
  ico_frames : PImage -> list (Z * Z) -> list (Z * Z);
}.

Record Env := mkEnv {
  (* the module-level [settings] when it is a dictionary, with the string
     values the window stores *)
  settings : gmap string string;
  getcwd : string;                                   (* os.getcwd(), when it returns *)
  (* str(Path(p) / name), in the path flavour of the platform *)
  path_div : string -> string -> string;
  os_name : string;                                  (* os.name *)
  isfile : string -> bool;                           (* os.path.isfile *)
  guess_type : string -> option string;              (* mimetypes.guess_type(p)[0] *)
  float_ok : string -> bool;                         (* float(p) does not raise *)
  Image : option Pillow;                             (* None: Pillow is missing *)
  (* pypandoc, when present: convert_file(infile, fmt, outputfile) raises *)
  pypandoc : option (string -> string -> string -> option Exception);
  (* subprocess.run(cmd, check=True) raises *)
  subprocess_run : list string -> option Exception;
  (* yt-dlp on a set of options (hooks apart) and a URL: the status
     dictionaries it reports, then the file name or the exception of
     extract_info / prepare_filename *)
  YoutubeDL : gmap string OptVal -> string -> list HookDict * Result string;
}.

(** The two ways in which the lookup of an output directory can raise:
    [load_settings] returned a list or a string, on which the attribute [get]
    is missing (the entries of [settings] are then of no use), and the
    working directory was removed, so that [os.getcwd] raises.  The download
    job, which can be called without a window, and every lookup of an output
    directory are modelled in such a process.  Where a window exists
    [settings] is a dictionary (building the tabs reads it with [get]); the
    worker of the Instagram tab and the conversions are modelled for a
    dictionary. *)
Record Host := mkHost {
  settings_get_error : option Exception;             (* settings.get raises *)
  getcwd_error : option Exception;                   (* os.getcwd() raises *)
}.

(** A process with a settings dictionary and a working directory. *)
Definition sound : Host := mkHost None None.

(** [im.mode] *)
Fixpoint mode_of (im : PImage) : string :=
  match im with
  | ImOpen _ mode => mode
  | ImNew mode _ _ => mode
  | ImBand _ _ => "L"
  | ImPaste background _ _ => mode_of background
  end.

(** A resolution that is not larger than an image of the given width and
    height. *)
Definition fits (width height : Z) (size : Z * Z) : bool :=
  (size.1 <=? width) && (size.2 <=? height).

(** Modes of Pillow that carry an alpha band. *)
Definition has_alpha (mode : string) : bool :=
  PyStr.in_tuple mode ["RGBA"; "LA"; "PA"; "RGBa"; "La"].

Section Program.

Variable env : Env.
Variable host : Host.

Import PyStr.

(** [settings.get(k, "")] *)
Definition settings_get (k : string) : string := default "" (settings env !! k).

Definition ffmpeg_exec : string :=
  let p := strip (settings_get "ffmpeg_path") in
  if truthy p
  then path_div env p (if String.eqb (os_name env) "nt" then "ffmpeg.exe" else "ffmpeg")
  else "ffmpeg".

(** *** yt-dlp helpers *)

(** The hook reads the percentage before its own [try]: on [None] the
    call of [strip] raises, and the hook with it. *)
Definition p_hook (emitter : Emitter) (d : HookDict) : Py unit :=
  match hd_status d with
  | HStr "downloading" =>
      match hook_get (hd_percent_str d) "0%" with
      | None => raise (AttributeError "'NoneType' object has no attribute 'strip'")
      | Some text =>
          let p := remove_char "%" (strip text) in
          (if float_ok env p
           then progress_emit emitter (PctFloat p)
           else progress_emit emitter (PctLit 0)) ;;
          log_emit emitter ("Downloading: " +:+ format_value (hook_get (hd_filename d) "")
                            +:+ " " +:+ format_value (hook_get (hd_percent_str d) ""))
      end
  | HStr "finished" =>
      progress_emit emitter (PctLit 100) ;;
      log_emit emitter "Merging/processing..."
  | _ => ret tt
  end.

(** [settings.get("ffmpeg_path", "") or None] *)
Definition ffmpeg_location : OptVal :=
  if truthy (settings_get "ffmpeg_path") then OStr (settings_get "ffmpeg_path") else ONone.

(** [opts.update({k1: v1, ...})] *)
Definition update (kvs : list (string * OptVal)) (opts : gmap string OptVal)
  : gmap string OptVal :=
  foldl (fun m kv => <[kv.1 := kv.2]> m) opts kvs.

Definition build_ydl_opts_for_download (outdir fmt : string)
    (emitter : option Emitter) (cookiefile : option string) : gmap string OptVal :=
  let opts : gmap string OptVal :=
    update [ ("outtmpl", OStr (OsPath.join outdir "%(uploader)s - %(title)s.%(ext)s"));
             ("noplaylist", OBool false);
             ("nocheckcertificate", OBool true) ] ∅ in
  let opts :=
    match emitter with
    | Some em => <["progress_hooks" := OList [OHook em]]> opts
    | None => opts
    end in
  let opts :=
    match cookiefile with
    | Some c => if truthy c then <["cookiefile" := OStr c]> opts else opts
    | None => opts
    end in
  if String.eqb fmt "mp3" then
    update [ ("format", OStr "bestaudio/best");
             ("postprocessors",
              OList [ODict (update [ ("key", OStr "FFmpegExtractAudio");
                                     ("preferredcodec", OStr "mp3");
                                     ("preferredquality", OStr "192") ] ∅)]);
             ("prefer_ffmpeg", OBool true);
             ("postprocessor_args", OList []);
             ("ffmpeg_location", ffmpeg_location) ] opts
  else if String.eqb fmt "mp4" then
    update [ ("format", OStr "bestvideo+bestaudio/best");
             ("merge_output_format", OStr "mp4");
             ("ffmpeg_location", ffmpeg_location) ] opts
  else
    update [ ("format", OStr "best"); ("ffmpeg_location", ffmpeg_location) ] opts.

(** [{k: v for k, v in ydl_opts.items() if v is not None}] *)
Definition drop_None (opts : gmap string OptVal) : gmap string OptVal :=
  filter (fun kv => is_None kv.2 = false) opts.

(** The hooks registered under ["progress_hooks"]. *)
Definition hooks_of (opts : gmap string OptVal) : list Emitter :=
  match opts !! "progress_hooks" with
  | Some (OList l) =>
      omap (fun v => match v with OHook em => Some em | _ => None end) l
  | _ => []
  end.

(** [with yt_dlp.YoutubeDL(opts) as ydl: info = ydl.extract_info(url,
    download=True); filename = ydl.prepare_filename(info)]: yt-dlp calls
    every hook on every status dictionary, then returns or raises.  A hook
    that raises ends the call there: its exception leaves [extract_info]. *)
Definition extract_info (opts : gmap string OptVal) (url : string) : Py string :=
  enter RemoteFetcher ;;
  let '(reports, outcome) := YoutubeDL env (delete "progress_hooks" opts) url in
  for_each reports (fun d => for_each (hooks_of opts) (fun em => p_hook em d)) ;;
  external outcome.

(** [a or settings.get("default_output") or os.getcwd()]: the operands
    are evaluated from the left, as far as the first one that holds. *)
Definition download_dir (a : string) : Result string :=
  if truthy a then Ok a
  else
    match settings_get_error host with
    | Some e => Raise e
    | None =>
        if truthy (settings_get "default_output") then Ok (settings_get "default_output")
        else
          match getcwd_error host with
          | Some e => Raise e
          | None => Ok (getcwd env)
          end
    end.

(** The output directory is settled before the [try]; inside it, the first
    access to [settings] is the one of [build_ydl_opts_for_download]. *)
Definition yt_download (url outdir fmt : string)
    (emitter : option Emitter) (cookiefile : option string) : Py string :=
  if negb (truthy url) || negb (truthy (strip url)) then
    ret "❌ No URL provided"
  else
    outdir <- external (download_dir outdir) ;;
    try_except
      (if_emitter emitter (fun em =>
         log_emit em ("Starting download: " +:+ url +:+ " → " +:+ outdir
                      +:+ " as " +:+ fmt) ;;
         progress_emit em (PctLit 0)) ;;
       check (settings_get_error host) ;;
       let ydl_opts := build_ydl_opts_for_download outdir fmt emitter cookiefile in
       let ydl_opts := drop_None ydl_opts in
       filename <- extract_info ydl_opts url ;;
       if_emitter emitter (fun em =>
         log_emit em ("Saved: " +:+ filename) ;;
         progress_emit em (PctLit 100)) ;;
       ret ("✅ Download complete: " +:+ url))
      (fun e =>
         if_emitter emitter (fun em =>
           log_emit em ("❌ Error: " +:+ exc_str e) ;;
           progress_emit em (PctLit 0)) ;;
         ret ("❌ Error: " +:+ exc_str e)).

(** *** Conversion helpers *)

Definition ico_sizes : list (Z * Z) :=
  [ (16, 16); (32, 32); (48, 48); (64, 64); (128, 128); (256, 256) ].

(** [im.save(outfile, format=format)], for the formats that hold one image *)
Definition save (pil : Pillow) (im : PImage) (outfile format : string)
    (sizes : list (Z * Z)) : Py unit :=
  check (save_error pil im outfile format sizes) ;;
  write_file outfile (PillowFile format im sizes).

(** [im.save(outfile, format="ICO", sizes=sizes)]: the file holds the
    resolutions that the encoder makes of the request. *)
Definition save_ico (pil : Pillow) (im : PImage) (outfile : string)
    (sizes : list (Z * Z)) : Py unit :=
  check (save_error pil im outfile "ICO" sizes) ;;
  write_file outfile (PillowFile "ICO" im (ico_frames pil im sizes)).

Definition convert_image_with_pillow (infile outfile target_format : string) : Py unit :=
  enter RasterImage ;;
  match Image env with
  | None => raise (RuntimeError "Pillow is not installed (pip install Pillow)")
  | Some pil =>
      check (open_error pil infile "RGBA") ;;
      let img := ImOpen infile "RGBA" in
      let fmt := lower target_format in
      if String.eqb fmt "ico" then
        save_ico pil img outfile ico_sizes
      else if in_tuple fmt ["jpg"; "jpeg"] && in_tuple (mode_of img) ["RGBA"; "LA"] then
        let background := ImNew "RGB" img (255, 255, 255) in
        let background := ImPaste background img (ImBand img 3) in
        save pil background outfile (upper fmt) []
      else
        save pil img outfile (upper fmt) []
  end.

Definition convert_with_ffmpeg_cmd (infile outfile : string) : Py unit :=
  enter AudioVideo ;;
  let ff := ffmpeg_exec in
  let cmd := [ff; "-y"; "-i"; infile; outfile] in
  check (subprocess_run env cmd) ;;
  write_file outfile (FfmpegFile cmd).

Definition convert_document_with_pandoc (infile outfile target_format : string) : Py unit :=
  enter Document ;;
  match pypandoc env with
  | None => raise (RuntimeError "pypandoc not installed or pandoc not available")
  | Some convert_file =>
      check (convert_file infile target_format outfile) ;;
      write_file outfile (PandocFile infile target_format)
  end.

(** [mime and mime.startswith(p)] *)
Definition mime_startswith (mime : option string) (p : string) : bool :=
  match mime with
  | Some m => truthy m && startswith m p
  | None => false
  end.

Definition document_targets : list string := ["pdf"; "docx"; "txt"; "md"; "rtf"].

Definition convert_generic (infile outfile target_format : string)
    (emitter : option Emitter) : Py string :=
  try_except
    (let mime := guess_type env infile in
     if_emitter emitter (fun em =>
       log_emit em ("Converting " +:+ OsPath.basename infile +:+ " → "
                    +:+ OsPath.basename outfile)) ;;
     (if mime_startswith mime "image" then
        convert_image_with_pillow infile outfile target_format
      else if in_tuple (lower target_format) document_targets
              && bool_decide (is_Some (pypandoc env)) then
        convert_document_with_pandoc infile outfile target_format
      else if mime_startswith mime "video" || mime_startswith mime "audio" then
        convert_with_ffmpeg_cmd infile outfile
      else
        convert_with_ffmpeg_cmd infile outfile) ;;
     if_emitter emitter (fun em => log_emit em ("✅ Converted: " +:+ outfile)) ;;
     ret ("✅ Converted to " +:+ target_format))
    (fun e =>
       if_emitter emitter (fun em => log_emit em ("❌ Conversion error: " +:+ exc_str e)) ;;
       ret ("❌ Conversion error: " +:+ exc_str e)).

Definition convert_generic_wrapper (infile outfile target : string)
    (emitter : option Emitter) : Py string :=
  em <- attr emitter ;;
  log_emit em ("Starting conversion: " +:+ OsPath.basename infile +:+ " → "
               +:+ OsPath.basename outfile) ;;
  progress_emit em (PctLit 0) ;;
  try_except
    (res <- convert_generic infile outfile target emitter ;;
     progress_emit em (PctLit 80) ;;
     log_emit em res ;;
     progress_emit em (PctLit 100) ;;
     ret res)
    (fun e =>
       log_emit em ("❌ Error: " +:+ exc_str e) ;;
       progress_emit em (PctLit 0) ;;
       ret ("❌ Error: " +:+ exc_str e)).

(** The worker of the Instagram tab. *)
Definition insta_worker (u o : string) (c : option string) (em : Emitter) : Py string :=
  try_except
    (log_emit em ("Starting Instagram download: " +:+ u) ;;
     let opts := build_ydl_opts_for_download o "mp4" (Some em) c in
     let opts := <["noplaylist" := OBool true]> opts in
     fn <- extract_info opts u ;;
     log_emit em ("Saved: " +:+ fn) ;;
     progress_emit em (PctLit 100) ;;
     ret "✅ Done")
    (fun e =>
       log_emit em ("❌ Error: " +:+ exc_str e) ;;
       progress_emit em (PctLit 0) ;;
       ret ("❌ Error: " +:+ exc_str e)).

(** *** Worker utilities *)

(** The call of a target on its arguments, for the targets the window starts. *)
Definition call (t : Target) : Py string :=
  match t with
  | Tyt_download url out fmt emitter cookie =>
      yt_download url out fmt (Some emitter) cookie
  | Tconvert_generic_wrapper infile outfile target emitter =>
      convert_generic_wrapper infile outfile target (Some emitter)
  | Tinsta_worker u o c em => insta_worker u o c em
  end.

(** The body of the thread that [run_threaded] starts, for any callable
    [target] and any [on_done]. *)
Definition wrapper (target : Py string) (on_done : option (string -> Py unit)) : Py unit :=
  try_except
    (result <- target ;;
     match on_done with
     | Some f => f result
     | None => ret tt
     end)
    (fun e => print ("Background task error: " +:+ exc_str e)).

(** [run_threaded] on a target and its arguments: the thread is started; its
    body runs later, as [wrapper (call target) None]. *)
Definition run_threaded (t : Target) : Py unit := start_thread t.

(** *** The window *)

(** The text of the widgets that the entry points read. *)
Record MainApp := mkMainApp {
  yt_url : string;
  yt_format_box : string;
  yt_out_display : string;
  yt_cookie : string;
  conv_input : string;
  conv_format : string;
  conv_out : string;
  insta_url : string;
  insta_out : string;
  insta_cookie : string;
}.

(** [s or None] *)
Definition or_None (s : string) : option string :=
  if truthy s then Some s else None.

Definition start_youtube_download (self : MainApp) : Py unit :=
  let url := strip (yt_url self) in
  let fmt := yt_format_box self in
  out <- external (download_dir (strip (yt_out_display self))) ;;
  let cookie := or_None (strip (yt_cookie self)) in
  if negb (truthy url) then
    log_append Youtube "❌ Please paste a URL."
  else
    let emitter := mkEmitter Youtube in
    run_threaded (Tyt_download url out fmt emitter cookie).

Definition start_conversion (self : MainApp) : Py unit :=
  let infile := strip (conv_input self) in
  if negb (truthy infile) || negb (isfile env infile) then
    log_append Converter "❌ Select a valid input file."
  else
    let target := strip (conv_format self) in
    (* a or b or settings.get("default_output"), the last of which may be None *)
    let out_folder :=
      if truthy (strip (conv_out self)) then Some (strip (conv_out self))
      else if truthy (OsPath.dirname infile) then Some (OsPath.dirname infile)
      else settings env !! "default_output" in
    let base := (OsPath.splitext (OsPath.basename infile)).1 in
    match out_folder with
    | None =>
        (* os.path.join(None, ...) *)
        raise (TypeError "expected str, bytes or os.PathLike object, not NoneType")
    | Some folder =>
        let outfile := OsPath.join folder (base +:+ "." +:+ target) in
        let emitter := mkEmitter Converter in
        run_threaded (Tconvert_generic_wrapper infile outfile target emitter)
    end.

Definition start_insta_download (self : MainApp) : Py unit :=
  let url := strip (insta_url self) in
  if negb (truthy url) then
    log_append Instagram "❌ Paste an Instagram URL."
  else
    out <- external (download_dir (strip (insta_out self))) ;;
    let cookie := or_None (strip (insta_cookie self)) in
    let emitter := mkEmitter Instagram in
    run_threaded (Tinsta_worker url out cookie emitter).

End Program.

(** ** The dispatch policy, as the spec words it and as the code branches *)

Inductive Category : Type := Video | Audio | Image_ | Document_ | Unknown.

(** The category of a source, by the tests that [browse_conv_input] and
    [convert_generic] make on its guessed media type. *)
Definition classify (mime : option string) : Category :=
  if mime_startswith mime "video" then Video
  else if mime_startswith mime "audio" then Audio
  else if mime_startswith mime "image" then Image_
  else match mime with
       | Some m =>
           if PyStr.truthy m && (PyStr.startswith m "application" || String.eqb m "text/plain")
           then Document_ else Unknown
       | None => Unknown
       end.

Definition is_image (c : Category) : bool :=
  match c with Image_ => true | _ => false end.

Definition is_video_or_audio (c : Category) : bool :=
  match c with Video | Audio => true | _ => false end.

(** The four rules of the dispatch policy in the words of the spec:
    [raster_capable] and [document_available] say whether the raster-image
    and the document adapter are present. *)
Definition spec_resolve (raster_capable document_available : bool)
    (c : Category) (target_format : string) : Adapter :=
  if is_image c && raster_capable then RasterImage
  else if PyStr.in_tuple (PyStr.lower target_format) document_targets && document_available
  then Document
  else if is_video_or_audio c then AudioVideo
  else AudioVideo.

(** The adapter that the branches of [convert_generic] select. *)
Definition dispatch (document_available : bool) (c : Category) (target_format : string)
  : Adapter :=
  if is_image c then RasterImage
  else if PyStr.in_tuple (PyStr.lower target_format) document_targets && document_available
  then Document
  else AudioVideo.

(** ** The profiles of the remote fetcher, in the words of the spec *)

(** "audio-only, best audio codec" *)
Definition audio_only_profile (opts : gmap string OptVal) : Prop :=
  opts !! "format" = Some (OStr "bestaudio/best").

(** "best video+audio, merged to the requested container" *)
Definition merged_profile (container : string) (opts : gmap string OptVal) : Prop :=
  opts !! "format" = Some (OStr "bestvideo+bestaudio/best") /\
  opts !! "merge_output_format" = Some (OStr container).

(** ** Sample environments *)

Module Sample.

Definition KeyError (key : string) : Exception :=
  mkExc "KeyError" ("'" +:+ key +:+ "'").

Definition FileNotFoundError (path : string) : Exception :=
  mkExc "FileNotFoundError" ("[Errno 2] No such file or directory: '" +:+ path +:+ "'").

Definition files : list string := ["clip.mp4"; "photo.png"; "icon.png"; "data.bin"].

Definition is_sample_file (p : string) : bool := PyStr.in_tuple p files.

(** A table in the manner of [mimetypes.types_map], keyed by extension. *)
Definition mime_table (p : string) : option string :=
  let ext := PyStr.lower (OsPath.splitext p).2 in
  if String.eqb ext ".png" then Some "image/png"
  else if String.eqb ext ".mp4" then Some "video/mp4"
  else if String.eqb ext ".mp3" then Some "audio/mpeg"
  else if String.eqb ext ".txt" then Some "text/plain"
  else None.

(** A Pillow that opens the sample files and encodes under the names of
    its save handlers; the sample images are 32 pixels wide and high, and
    the ICO encoder leaves out the resolutions that are larger. *)
Definition save_handlers : list string :=
  ["BMP"; "GIF"; "ICO"; "JPEG"; "PNG"; "TIFF"; "WEBP"].

Definition pillow : Pillow :=
  mkPillow
    (fun path _ => if is_sample_file path then None else Some (FileNotFoundError path))
    (fun _ _ format _ =>
       if PyStr.in_tuple (PyStr.upper format) save_handlers then None
       else Some (KeyError (PyStr.upper format)))
    (fun _ sizes => filter (fun size => fits 32 32 size = true) sizes).

Definition sample_settings : gmap string string :=
  <["ffmpeg_path" := ""]> (<["default_output" := "/home/u/Downloads"]> ∅).

Definition reports : list HookDict :=
  [ mkHookDict (HStr "downloading") (HStr " 50.0%") (HStr "/out/a.mp4");
    mkHookDict (HStr "finished") HAbsent (HStr "/out/a.mp4") ].

(** [str(Path(p) / name)] on paths that need no normalisation. *)
Definition posix_div (p name : string) : string := p +:+ "/" +:+ name.

(** Every tool present and working. *)
Definition env : Env :=
  mkEnv sample_settings "/home/u" posix_div "posix" is_sample_file mime_table
        (fun p => PyStr.truthy p)
        (Some pillow)
        (Some (fun _ _ _ => None))
        (fun _ => None)
        (fun _ _ => (reports, Ok "/out/a.mp4")).

(** The same, with the ffmpeg executable missing. *)
Definition env_no_ffmpeg : Env :=
  mkEnv sample_settings "/home/u" posix_div "posix" is_sample_file mime_table
        (fun p => PyStr.truthy p)
        (Some pillow)
        (Some (fun _ _ _ => None))
        (fun cmd => Some (FileNotFoundError (default "" (head cmd))))
        (fun _ _ => (reports, Ok "/out/a.mp4")).

(** The same as [env], with Pillow missing. *)
Definition env_no_pillow : Env :=
  mkEnv sample_settings "/home/u" posix_div "posix" is_sample_file mime_table
        (fun p => PyStr.truthy p)
        None
        (Some (fun _ _ _ => None))
        (fun _ => None)
        (fun _ _ => (reports, Ok "/out/a.mp4")).

Definition em : Emitter := mkEmitter Converter.

End Sample.

(** ** Names used in the statements *)

(** The post-processor entry of the mp3 profile. *)
Definition extract_mp3 : OptVal :=
  OList [ODict (<["preferredquality" := OStr "192"]>
                  (<["preferredcodec" := OStr "mp3"]>
                     (<["key" := OStr "FFmpegExtractAudio"]> ∅)))].

(** The keys of the options that carry the profile. *)
Definition profile_of (opts : gmap string OptVal)
  : option OptVal * option OptVal * option OptVal :=
  (opts !! "format", opts !! "merge_output_format", opts !! "postprocessors").


(** [<input-base-name>.<target-format>] *)
Definition derived_name (infile target : string) : string :=
  (OsPath.splitext (OsPath.basename infile)).1 +:+ "." +:+ target.

(** Sample contents of the fields of the window; the URL of the first has
    a tab, a no-break space and an ideographic space. *)
Definition blank_url_form : MainApp :=
  mkMainApp "  	 　" "mp4" "/out" "" "" "" "" "" "" "".


Definition clip_form : MainApp :=
  mkMainApp "" "" "" "" "clip.mp4" "mp3" "dir" "" "" "".

Definition key_names : JVal := JList [JStr "ffmpeg_path"; JStr "default_output"].

(** ** Predicates on computations *)

(** [returns c]: from every world, [c] ends with a value; nothing escapes. *)
Definition returns {A} (c : Py A) : Prop :=
  forall w, exists a, (c w).1 = Ok a.

(** The world with its record of emitted events erased. *)
Definition hide_events (w : World) : World :=
  mkWorld [] (invoked w) (outputs w) (stdout w) (threads w) (gui_log w).

(** [c1] and [c2] cannot be told apart by their result or by any effect
    other than the events they emit. *)
Definition same_outcome {A} (c1 c2 : Py A) : Prop :=
  forall w1 w2, hide_events w1 = hide_events w2 ->
    (c1 w1).1 = (c2 w2).1 /\ hide_events (c1 w1).2 = hide_events (c2 w2).2.

(** [c] may emit events and does nothing else. *)
Definition only_emits (c : Py unit) : Prop :=
  forall w, (c w).1 = Ok tt /\ hide_events (c w).2 = hide_events w.

(** The world after more events. *)
Definition emitted (w : World) (evs : list Event) : World :=
  mkWorld (events w ++ evs) (invoked w) (outputs w) (stdout w) (threads w) (gui_log w).

(** [c] emits nothing. *)
Definition emits_nothing {A} (c : Py A) : Prop :=
  forall w, events (c w).2 = events w.

(** [c] ends in the same way in every world. *)
Definition steady {A} (c : Py A) : Prop :=
  forall w w', (c w).1 = (c w').1.

(** [c] enters the backends [l], in this order, and no other. *)
Definition enters {A} (l : list Adapter) (c : Py A) : Prop :=
  forall w, invoked (c w).2 = (invoked w ++ l)%list.

(** The image that the JPEG branch hands to the encoder: the source pasted
    on a white RGB image of its size, through its own alpha band. *)
Definition on_white (img : PImage) : PImage :=
  ImPaste (ImNew "RGB" img (255, 255, 255)) img (ImBand img 3).

(** ** Saving the settings and the Settings menu *)

(** What writing the settings file comes to: the file now holds the value
    that was dumped, or [open] or [json.dump] raised and left the file in
    some state. *)
Inductive WriteOutcome : Type :=
| Written
| WriteFailed (e : Exception) (residue : SettingsFile).

(** The module-level [settings], the settings file and the lines printed. *)
Record Store := mkStore {
  st_settings : JVal;
  st_file : SettingsFile;
  st_stdout : list string;
}.

Definition save_settings (s : JVal) (o : WriteOutcome) (st : Store) : Store :=
  match o with
  | Written => mkStore (st_settings st) (Some (Ok s)) (st_stdout st)
  | WriteFailed e residue =>
      mkStore (st_settings st) residue
              (st_stdout st ++ ["Failed to save settings: " +:+ exc_str e])
  end.

(** [self.youtube_log_append(...)]: the window defines [yt_log_append],
    [conv_log_append] and [insta_log_append], and no method of this name. *)
Definition youtube_log_append : Exception :=
  AttributeError "'MainApp' object has no attribute 'youtube_log_append'".

(** The body shared by [set_ffmpeg_folder] and [set_default_output_folder]:
    [folder] is what the directory dialog returned, the empty string when it
    was cancelled. *)
Definition set_folder (key folder : string) (o : WriteOutcome) (st : Store)
  : Result unit * Store :=
  if PyStr.truthy folder then
    match py_setitem (st_settings st) key (JStr folder) with
    | Raise e => (Raise e, st)
    | Ok s' =>
        (Raise youtube_log_append,
         save_settings s' o (mkStore s' (st_file st) (st_stdout st)))
    end
  else (Ok tt, st).

Definition set_ffmpeg_folder : string -> WriteOutcome -> Store -> Result unit * Store :=
  set_folder "ffmpeg_path".

Definition set_default_output_folder
  : string -> WriteOutcome -> Store -> Result unit * Store :=
  set_folder "default_output".

(** ** The formats suggested for an input file *)

(** The list [available] that [browse_conv_input] computes from the guessed
    media type of the chosen file. *)
Definition available_formats (mt : option string) : list string :=
  if mime_startswith mt "video" then ["mp4"; "mp3"; "wav"; "gif"]
  else if mime_startswith mt "audio" then ["mp3"; "wav"; "mp4"]
  else if mime_startswith mt "image" then ["png"; "jpg"; "ico"; "webp"]
  else if match mt with
          | Some m => PyStr.truthy m
                      && (PyStr.startswith m "application" || String.eqb m "text/plain")
          | None => false
          end
  then ["pdf"; "docx"; "txt"; "md"]
  else ["mp3"; "mp4"; "png"; "jpg"; "pdf"; "txt"].

(** The adapter that serves a category by itself. *)
Definition adapter_of (c : Category) : Adapter :=
  match c with
  | Image_ => RasterImage
  | Document_ => Document
  | Video | Audio | Unknown => AudioVideo
  end.

(** ** More sample inputs *)

(** An environment with one file, in a directory. *)
Definition env_home : Env :=
  mkEnv Sample.sample_settings "/home/u" Sample.posix_div "posix"
        (String.eqb "/home/u/clip.mp4") Sample.mime_table
        (fun p => PyStr.truthy p)
        (Some Sample.pillow)
        (Some (fun _ _ _ => None))
        (fun _ => None)
        (fun _ _ => (Sample.reports, Ok "/out/a.mp4")).

(** An environment with a bare file name, no default output and a Windows
    folder of ffmpeg. *)
Definition env_bare : Env :=
  mkEnv (<["ffmpeg_path" := " C:/ffmpeg/bin "]> ∅) "/home/u"
        (fun p name => PyStr.map_chars (fun c => if Ascii.eqb c "/" then "\"%char else c) p
                       +:+ "\" +:+ name)
        "nt"
        (String.eqb "clip.mp4") Sample.mime_table
        (fun p => PyStr.truthy p)
        None
        None
        (fun _ => None)
        (fun _ _ => ([], Raise (mkExc "DownloadError" "network unreachable"))).

Definition same_folder_form : MainApp :=
  mkMainApp "" "" "" "" " /home/u/clip.mp4 " "mp3" "  " "" "" "".

Definition bare_form : MainApp :=
  mkMainApp "" "" "" "" "clip.mp4" "mp3" "" "" "" "".

Definition insta_form : MainApp :=
  mkMainApp "" "" "" "" "" "" "" " https://www.instagram.com/p/x/ " "" "  ".

Definition sample_store : Store :=
  mkStore (JDict (<["ffmpeg_path" := JStr ""]>
                    (<["default_output" := JStr "/home/u/Downloads"]> ∅)))
          None [].

(** ** What a download asks of yt-dlp and what the hook makes of it *)

(** [d.get("status") == s] *)
Definition status_is (d : HookDict) (s : string) : bool :=
  match hd_status d with
  | HStr t => String.eqb t s
  | _ => false
  end.

(** The status dictionaries on which the hook raises: a download in
    progress whose percentage is [None]. *)
Definition hook_raises (d : HookDict) : bool :=
  status_is d "downloading"
  && match hd_percent_str d with HNone => true | _ => false end.

(** The events that the hook emits for one status dictionary on which it
    does not raise. *)
Definition hook_events (env : Env) (d : HookDict) : list Event :=
  if status_is d "downloading" then
    [ Progress (if float_ok env (PyStr.remove_char "%"
                                   (PyStr.strip (format_value (hook_get (hd_percent_str d) "0%"))))
                then PctFloat (PyStr.remove_char "%"
                                 (PyStr.strip (format_value (hook_get (hd_percent_str d) "0%"))))
                else PctLit 0);
      LogLine ("Downloading: " +:+ format_value (hook_get (hd_filename d) "") +:+ " "
               +:+ format_value (hook_get (hd_percent_str d) "")) ]
  else if status_is d "finished" then
    [ Progress (PctLit 100); LogLine "Merging/processing..." ]
  else [].

(** The answer of yt-dlp to the request of a download job into the
    directory [dir]: its reports and its outcome. *)
Definition download_answer (env : Env) (url dir fmt : string)
    (cookiefile : option string) : list HookDict * Result string :=
  YoutubeDL env
    (delete "progress_hooks"
       (drop_None (build_ydl_opts_for_download env dir fmt None cookiefile)))
    url.

(** What the hook makes of the reports of yt-dlp, in order: the events it
    emits, as far as the first report on which it raises, and whether it
    raised. *)
Fixpoint hook_trace (env : Env) (reports : list HookDict) : list Event * bool :=
  match reports with
  | [] => ([], false)
  | d :: rest =>
      if hook_raises d then ([], true)
      else ((hook_events env d ++ (hook_trace env rest).1)%list, (hook_trace env rest).2)
  end.

(** How the [try] of a download into [dir] ends: with the exception of the
    lookup of [settings], of the hook or of yt-dlp, or with the file name. *)
Definition download_result (env : Env) (host : Host) (url dir fmt : string)
    (cookiefile : option string) : Result string :=
  match settings_get_error host with
  | Some e => Raise e
  | None =>
      if (hook_trace env (download_answer env url dir fmt cookiefile).1).2
      then Raise (AttributeError "'NoneType' object has no attribute 'strip'")
      else (download_answer env url dir fmt cookiefile).2
  end.

(** A process in which [load_settings] returned the list of the two key
    names, and one whose working directory was removed. *)
Definition host_list : Host :=
  mkHost (Some (AttributeError "'list' object has no attribute 'get'")) None.

Definition cwd_gone : Exception :=
  mkExc "FileNotFoundError" "[Errno 2] No such file or directory".

Definition host_no_cwd : Host := mkHost None (Some cwd_gone).

(** A download that reports a percentage of [None]. *)
Definition env_percent_None : Env :=
  mkEnv Sample.sample_settings "/home/u" Sample.posix_div "posix"
        Sample.is_sample_file Sample.mime_table
        (fun p => PyStr.truthy p)
        (Some Sample.pillow)
        (Some (fun _ _ _ => None))
        (fun _ => None)
        (fun _ _ => ([mkHookDict (HStr "downloading") HNone (HStr "/out/a.mp4")],
                     Ok "/out/a.mp4")).

(** The adapter that the branches of [convert_generic] call. *)
Definition run_adapter (env : Env) (infile outfile target_format : string) : Py unit :=
  if mime_startswith (guess_type env infile) "image" then
    convert_image_with_pillow env infile outfile target_format
  else if PyStr.in_tuple (PyStr.lower target_format) document_targets
          && bool_decide (is_Some (pypandoc env)) then
    convert_document_with_pandoc env infile outfile target_format
  else
    convert_with_ffmpeg_cmd env infile outfile.

(** The calls of a download job that can raise inside its [try]: the
    options are built, which reads [settings], and yt-dlp runs. *)
Definition fetch (env : Env) (host : Host) (url dir fmt : string)
    (emitter : option Emitter) (cookiefile : option string) : Py string :=
  check (settings_get_error host) ;;
  extract_info env
    (drop_None (build_ydl_opts_for_download env dir fmt emitter cookiefile)) url.

(** The job of the Instagram tab for the fields of the window and an
    output folder: the URL without the white space around it, and the cookie
    file when its field is not blank. *)
Definition insta_job (self : MainApp) (out : string) : Target :=
  Tinsta_worker (PyStr.strip (insta_url self)) out
                (if PyStr.all_space (insta_cookie self) then None
                 else Some (PyStr.strip (insta_cookie self)))
                (mkEmitter Instagram).

(** The jobs that an entry point of the window starts from the world [w]. *)
Definition started_by (c : Py unit) (w : World) (t : Target) : Prop :=
  threads (c w).2 = (threads w ++ [t])%list.

(** * Properties *)

(** ** The primitives on sample inputs *)

Example basename_ex : OsPath.basename "/home/u/clip.mp4" = "clip.mp4".
Proof. reflexivity. Qed.

Example dirname_ex : OsPath.dirname "/home/u/clip.mp4" = "/home/u".
Proof. reflexivity. Qed.

Example splitext_ex1 : OsPath.splitext "a.tar.gz" = ("a.tar", ".gz").
Proof. reflexivity. Qed.

Example splitext_ex2 : OsPath.splitext ".bashrc" = (".bashrc", "").
Proof. reflexivity. Qed.

Example join_ex : OsPath.join "/out/" "a.mp3" = "/out/a.mp3".
Proof. reflexivity. Qed.

Example strip_ex : PyStr.strip "  a b	 " = "a b".
Proof. reflexivity. Qed.

Example lower_ex : PyStr.lower "JpEg" = "jpeg".
Proof. reflexivity. Qed.

(** ** Settings *)

Section SettingsFacts.

Variable home : string.

Lemma default_copy_has_keys : has_default_keys home (DEFAULT_SETTINGS_copy home).
Proof.
  eexists; split; [reflexivity|].
  intros k Hk. cbn in Hk.
  change (list_to_map (DEFAULT_SETTINGS home))
    with (<["ffmpeg_path" := JStr ""]>
            (<["default_output" := JStr home]> (∅ : gmap string JVal))).
  apply elem_of_cons in Hk as [->|Hk]; [by rewrite lookup_insert_eq|].
  apply elem_of_cons in Hk as [->|Hk]; [|by apply elem_of_nil in Hk].
  rewrite lookup_insert_ne by done. by rewrite lookup_insert_eq.
Qed.

(** On a JSON object the loop adds exactly the missing defaults. *)
Lemma fill_defaults_object (d : gmap string JVal) :
  exists d', fill_defaults (DEFAULT_SETTINGS home) (JDict d) = Ok (JDict d')
    /\ d ⊆ d'
    /\ forall k, k ∈ (DEFAULT_SETTINGS home).*1 -> is_Some (d' !! k).
Proof.
  assert (Hne : forall v, <["ffmpeg_path" := v]> d !! "default_output" = d !! "default_output")
    by (intros v; by rewrite lookup_insert_ne).
  assert (Hkeys : forall d' : gmap string JVal,
             is_Some (d' !! "ffmpeg_path") -> is_Some (d' !! "default_output") ->
             forall k, k ∈ (DEFAULT_SETTINGS home).*1 -> is_Some (d' !! k)).
  { intros d' Ha Hb k Hk; cbn in Hk.
    apply elem_of_cons in Hk as [->|Hk]; [done|].
    apply elem_of_cons in Hk as [->|Hk]; [done|by apply elem_of_nil in Hk]. }
  unfold DEFAULT_SETTINGS; cbn [fill_defaults py_in py_setitem].
  destruct (d !! "ffmpeg_path") as [v1|] eqn:H1; cbn.
  - destruct (d !! "default_output") as [v2|] eqn:H2; cbn.
    + exists d; split_and!; [done|done|]. apply Hkeys; rewrite ?H1, ?H2; eauto.
    + eexists; split_and!; [done|by apply insert_subseteq|].
      apply Hkeys; [rewrite lookup_insert_ne by done; rewrite H1; eauto|].
      rewrite lookup_insert_eq; eauto.
  - rewrite Hne. destruct (d !! "default_output") as [v2|] eqn:H2; cbn.
    + eexists; split_and!; [done|by apply insert_subseteq|].
      apply Hkeys; [rewrite lookup_insert_eq; eauto|].
      rewrite Hne; eauto.
    + eexists; split_and!; [done| |].
      * etrans; [apply (insert_subseteq d "ffmpeg_path" (JStr "")); done|].
        apply insert_subseteq. by rewrite Hne.
      * apply Hkeys; [|rewrite lookup_insert_eq; eauto].
        rewrite lookup_insert_ne by done. rewrite lookup_insert_eq; eauto.
Qed.

(** The three cases the loader was written for: no file, a file that
    cannot be read or parsed, and a file that holds a JSON object; the
    entries of the object are kept. *)
Lemma load_settings_three_cases (file : SettingsFile) :
  (file = None \/ (exists e, file = Some (Raise e)) \/ (exists d, file = Some (Ok (JDict d)))) ->
  has_default_keys home (load_settings home file).
Proof.
  intros [->|[[e ->]|[d ->]]]; unfold load_settings; try apply default_copy_has_keys.
  destruct (fill_defaults_object d) as (d' & -> & _ & Hk).
  by exists d'.
Qed.

Lemma load_settings_keeps_entries (d : gmap string JVal) :
  exists d', load_settings home (Some (Ok (JDict d))) = JDict d' /\ d ⊆ d'.
Proof.
  unfold load_settings. destruct (fill_defaults_object d) as (d' & -> & Hsub & _). eauto.
Qed.

End SettingsFacts.

(** C10 (the code departs from the claim).  A settings file that holds the
    JSON array of the two key names parses, passes both [k not in s] tests
    (on a list they test for an element), and is returned as it is: the
    result is a list, not a dictionary with the default keys. *)
Theorem load_settings_returns_list (home : string) :
  load_settings home (Some (Ok key_names)) = key_names /\
  ~ has_default_keys home (load_settings home (Some (Ok key_names))).
Proof.
  cbn. split; [reflexivity|].
  intros (d & Hd & _). discriminate Hd.
Qed.

(** The same with a JSON string in which both names occur. *)
Lemma load_settings_returns_string (home : string) :
  load_settings home (Some (Ok (JStr "ffmpeg_path,default_output")))
  = JStr "ffmpeg_path,default_output".
Proof. reflexivity. Qed.

(** ** The options built for yt-dlp *)

(** C6 (as the code has it).  The profile depends on the target by two
    string comparisons: ["mp3"] asks for the best audio and its extraction to
    mp3, ["mp4"] asks for the best video and audio merged into mp4, and every
    other target asks for the single best format, with neither extraction
    nor merge. *)
Theorem build_ydl_opts_profile (env : Env) (outdir fmt : string)
    (emitter : option Emitter) (cookiefile : option string) :
  profile_of (build_ydl_opts_for_download env outdir fmt emitter cookiefile) =
    if String.eqb fmt "mp3" then
      (Some (OStr "bestaudio/best"), None, Some extract_mp3)
    else if String.eqb fmt "mp4" then
      (Some (OStr "bestvideo+bestaudio/best"), Some (OStr "mp4"), None)
    else
      (Some (OStr "best"), None, None).
Proof.
  unfold build_ydl_opts_for_download, profile_of.
  destruct emitter as [em|], cookiefile as [c|];
    try destruct (PyStr.truthy c);
    destruct (String.eqb fmt "mp3"); try destruct (String.eqb fmt "mp4");
    vm_compute; reflexivity.
Qed.

(** C6 (the claim as worded fails).  For the audio target wav the options do
    not ask for audio only, and for the container webm they ask neither for
    audio only nor for a merge into webm. *)
Lemma build_ydl_opts_wav_webm :
  ~ audio_only_profile (build_ydl_opts_for_download Sample.env "out" "wav" None None) /\
  ~ audio_only_profile (build_ydl_opts_for_download Sample.env "out" "webm" None None) /\
  ~ merged_profile "webm" (build_ydl_opts_for_download Sample.env "out" "webm" None None).
Proof.
  unfold audio_only_profile, merged_profile.
  split_and!; vm_compute; [intros H | intros H | intros [H _]]; discriminate H.
Qed.

(** ** Strings and paths *)

Section StringFacts.
Import PyStr OsPath.

Lemma dropwhile_all {A} (f : A -> bool) (l : list A) :
  dropwhile f l = [] <-> forallb f l = true.
Proof.
  induction l as [|x r IH]; cbn; [done|].
  destruct (f x); cbn; [done|]. split; discriminate.
Qed.

Lemma dropwhile_head {A} (f : A -> bool) (l : list A) (x : A) (r : list A) :
  dropwhile f l = x :: r -> f x = false.
Proof.
  induction l as [|y l IH]; cbn; [discriminate|].
  destruct (f y) eqn:Hy; [done|]. by intros [= -> _].
Qed.

Lemma dropwhile_Forall {A} (P : A -> Prop) (f : A -> bool) (l : list A) :
  Forall P l -> Forall P (dropwhile f l).
Proof.
  induction 1 as [|x r Hx Hr IH]; cbn; [done|].
  destruct (f x); [done|by constructor].
Qed.

Lemma forallb_rev {A} (f : A -> bool) (l : list A) :
  forallb f (rev l) = forallb f l.
Proof.
  induction l as [|x r IH]; cbn; [done|].
  rewrite forallb_app, IH. cbn. rewrite andb_true_r. apply andb_comm.
Qed.

Lemma join_chars_empty (l : list string) :
  Forall (fun ch => ch <> "") l -> join_chars l = "" -> l = [].
Proof.
  destruct 1 as [|ch r Hch _]; cbn; [done|].
  destruct ch; [done|discriminate].
Qed.

Lemma chars_cons (a : ascii) (r : string) :
  chars (String a r) =
    if code a <? 192 then String a "" :: chars r
    else match r with
         | "" => [String a r]
         | String b r1 =>
             if code a <? 224 then String a (String b "") :: chars r1
             else match r1 with
                  | "" => [String a r]
                  | String c r2 =>
                      if code a <? 240 then String a (String b (String c "")) :: chars r2
                      else match r2 with
                           | "" => [String a r]
                           | String d r3 =>
                               String a (String b (String c (String d ""))) :: chars r3
                           end
                  end
         end.
Proof. destruct r as [|b [|c [|d r]]]; reflexivity. Qed.

(** Every character that [chars] cuts has a byte. *)
Lemma chars_nonempty (s : string) : Forall (fun ch => ch <> "") (chars s).
Proof.
  assert (H : forall n s, (String.length s <= n)%nat -> Forall (fun ch => ch <> "") (chars s)).
  { clear s. induction n as [|n IH]; intros s Hn.
    - destruct s; [constructor|cbn in Hn; lia].
    - destruct s as [|a r]; [constructor|]. rewrite chars_cons.
      repeat case_match; subst; cbn [String.length] in Hn;
        (constructor; [done|]); first [apply IH; lia | constructor]. }
  by apply (H (String.length s)).
Qed.

(** The bytes of the characters are the bytes of the string. *)
Lemma join_chars_chars (s : string) : join_chars (chars s) = s.
Proof.
  assert (H : forall n s, (String.length s <= n)%nat -> join_chars (chars s) = s).
  { clear s. induction n as [|n IH]; intros s Hn.
    - destruct s; [done|cbn in Hn; lia].
    - destruct s as [|a r]; [done|]. rewrite chars_cons.
      repeat case_match; subst; cbn [String.length] in Hn;
        cbn [join_chars fold_right String.append]; try done; rewrite IH by lia; done. }
  by apply (H (String.length s)).
Qed.

Lemma strip_all_space (s : string) : all_space s = true -> strip s = "".
Proof.
  unfold all_space, strip. intros H%dropwhile_all. by rewrite H.
Qed.

Lemma strip_empty_iff (s : string) : strip s = "" <-> all_space s = true.
Proof.
  split; [|apply strip_all_space].
  unfold strip, all_space. intros H.
  apply join_chars_empty in H.
  - apply (f_equal (@rev string)) in H. rewrite rev_involutive in H. cbn in H.
    apply dropwhile_all in H. rewrite forallb_rev in H.
    destruct (dropwhile isspace_char (chars s)) as [|x r] eqn:Hd.
    + by apply dropwhile_all.
    + apply dropwhile_head in Hd. cbn in H. rewrite Hd in H. discriminate.
  - apply Forall_rev, dropwhile_Forall, Forall_rev, dropwhile_Forall, chars_nonempty.
Qed.

(** The no-break space, the em space and the ideographic space are
    stripped as the space is; a letter with two bytes is not. *)
Example strip_unicode_ex : strip "  https://x　 " = "https://x".
Proof. reflexivity. Qed.

Example all_space_unicode_ex : all_space "  　 	" = true.
Proof. reflexivity. Qed.

Example not_space_ex : all_space "é" = false /\ strip "é " = "é".
Proof. split; reflexivity. Qed.

Lemma substring_all (s : string) : substring 0 (String.length s) s = s.
Proof. induction s as [|c r IH]; cbn; [done|]. by rewrite IH. Qed.

Lemma slice_from_nonpos (p : string) (i : Z) : i <= 0 -> slice_from p i = p.
Proof.
  intros Hi. unfold slice_from.
  replace (Z.to_nat i) with 0%nat by lia.
  rewrite Nat.sub_0_r. apply substring_all.
Qed.

Lemma slice_from_succ (c : ascii) (r : string) (i : Z) :
  0 <= i -> slice_from (String c r) (i + 1) = slice_from r i.
Proof.
  intros Hi. unfold slice_from.
  replace (Z.to_nat (i + 1)) with (S (Z.to_nat i)) by lia.
  reflexivity.
Qed.

Lemma rfind_from_bounds (c : ascii) (p : string) (i : Z) :
  rfind_from c p i = -1 \/
  (i <= rfind_from c p i < i + Z.of_nat (String.length p)).
Proof.
  revert i. induction p as [|d r IH]; intros i; cbn [rfind_from]; [by left|].
  destruct (IH (i + 1)) as [->|Hk].
  - cbn. destruct (Ascii.eqb d c); [right|by left].
    cbn [String.length]. lia.
  - destruct (Z.leb_spec 0 (rfind_from c r (i + 1))).
    + right. cbn [String.length]. lia.
    + destruct (Ascii.eqb d c); [right|by left].
      cbn [String.length]. lia.
Qed.

(** Past the index that [rfind] returns the character does not occur. *)
Lemma rfind_from_tail (c : ascii) (p : string) (i : Z) :
  0 <= i ->
  has_char c (slice_from p (rfind_from c p i - i + 1)) = false.
Proof.
  revert i. induction p as [|d r IH]; intros i Hi.
  { unfold slice_from. by destruct (Z.to_nat _). }
  cbn [rfind_from].
  specialize (IH (i + 1) ltac:(lia)).
  destruct (rfind_from_bounds c r (i + 1)) as [Hk|Hk].
  - rewrite Hk in *. cbn [Z.leb Z.compare].
    rewrite slice_from_nonpos in IH by lia.
    destruct (Ascii.eqb d c) eqn:Hd.
    + replace (i - i + 1) with (0 + 1) by lia.
      rewrite slice_from_succ by lia. by rewrite slice_from_nonpos.
    + rewrite slice_from_nonpos by lia. cbn. by rewrite Hd.
  - destruct (Z.leb_spec 0 (rfind_from c r (i + 1))); [|lia].
    replace (rfind_from c r (i + 1) - i + 1)
      with ((rfind_from c r (i + 1) - (i + 1) + 1) + 1) by lia.
    rewrite slice_from_succ by lia. done.
Qed.

Lemma basename_no_sep (p : string) : has_char sep (basename p) = false.
Proof.
  unfold basename, rfind.
  replace (rfind_from sep p 0 + 1) with (rfind_from sep p 0 - 0 + 1) by lia.
  by apply rfind_from_tail.
Qed.

Lemma has_char_prefix (c : ascii) (s : string) (n : nat) :
  has_char c s = false -> has_char c (substring 0 n s) = false.
Proof.
  revert n. induction s as [|d r IH]; intros [|n]; cbn; try done.
  intros [Hd Hr]%orb_false_elim. rewrite Hd. cbn. auto.
Qed.

Lemma splitext_root_no_sep (b : string) :
  has_char sep b = false -> has_char sep (splitext b).1 = false.
Proof.
  intros Hb. unfold splitext.
  destruct (_ && _); cbn [fst]; [|done].
  by apply has_char_prefix.
Qed.

Lemma prefix_one (a c : ascii) (s : string) :
  String.prefix (String a "") (String c s) = if ascii_dec a c then true else false.
Proof. by destruct s. Qed.

Lemma no_sep_not_absolute (base rest : string) :
  has_char sep base = false ->
  startswith (base +:+ "." +:+ rest) "/" = false.
Proof.
  destruct base as [|c r]; [done|].
  cbn [has_char]. intros [Hc _]%orb_false_elim.
  unfold startswith.
  change (String c r +:+ "." +:+ rest) with (String c (r +:+ "." +:+ rest)).
  rewrite prefix_one.
  destruct (ascii_dec "/" c) as [<-|]; [by vm_compute in Hc|done].
Qed.

(** Joining a directory with a relative name. *)
Lemma join_relative (a b : string) :
  startswith b "/" = false ->
  join a b = if negb (truthy a) || endswith_char a sep then a +:+ b
             else a +:+ "/" +:+ b.
Proof. intros H. unfold join. by rewrite H. Qed.

End StringFacts.

(** ** Submitting a download *)



(** A URL with a character that is not white space starts exactly one
    thread once the output folder is found, and nothing else changes. *)
Lemma start_youtube_download_submits (env : Env) (host : Host) (self : MainApp)
    (w : World) (out : string) :
  PyStr.all_space (yt_url self) = false ->
  download_dir env host (PyStr.strip (yt_out_display self)) = Ok out ->
  start_youtube_download env host self w =
    (Ok tt, mkWorld (events w) (invoked w) (outputs w) (stdout w)
                    (threads w ++ [Tyt_download (PyStr.strip (yt_url self)) out
                                                (yt_format_box self) (mkEmitter Youtube)
                                                (or_None (PyStr.strip (yt_cookie self)))])
                    (gui_log w)).
Proof.
  intros Hurl Hout. unfold start_youtube_download, bind, external. rewrite Hout.
  destruct (PyStr.strip (yt_url self)) eqn:Hs.
  - apply strip_empty_iff in Hs. congruence.
  - reflexivity.
Qed.

(** ** Submitting a conversion *)

(** C8.  For a valid input file the entry point starts one thread, whose
    output path is [os.path.join] of the output folder and
    [<base>.<target>], [base] being the name of the input file without its
    directory and its last extension.  With a chosen folder [d] this path is
    [d/<base>.<target>] (no second slash when [d] ends with one). *)
Theorem start_conversion_outfile (env : Env) (self : MainApp) (w : World) :
  PyStr.truthy (PyStr.strip (conv_input self)) = true ->
  isfile env (PyStr.strip (conv_input self)) = true ->
  PyStr.truthy (PyStr.strip (conv_out self)) = true ->
  exists outfile,
    start_conversion env self w =
      (Ok tt, mkWorld (events w) (invoked w) (outputs w) (stdout w)
                      (threads w ++ [Tconvert_generic_wrapper
                                       (PyStr.strip (conv_input self)) outfile
                                       (PyStr.strip (conv_format self))
                                       (mkEmitter Converter)])
                      (gui_log w))
    /\ outfile = OsPath.join (PyStr.strip (conv_out self))
                             (derived_name (PyStr.strip (conv_input self))
                                           (PyStr.strip (conv_format self)))
    /\ outfile = if PyStr.endswith_char (PyStr.strip (conv_out self)) OsPath.sep
                 then PyStr.strip (conv_out self)
                      +:+ derived_name (PyStr.strip (conv_input self))
                                       (PyStr.strip (conv_format self))
                 else PyStr.strip (conv_out self) +:+ "/"
                      +:+ derived_name (PyStr.strip (conv_input self))
                                       (PyStr.strip (conv_format self)).
Proof.
  intros Hin Hfile Hd.
  eexists. split_and!; [|reflexivity|].
  - unfold start_conversion. rewrite Hin, Hfile. cbn [negb orb].
    by rewrite Hd.
  - rewrite join_relative.
    + by rewrite Hd.
    + apply no_sep_not_absolute, splitext_root_no_sep, basename_no_sep.
Qed.

Lemma start_conversion_outfile_witness :
  start_conversion Sample.env clip_form empty_world =
    (Ok tt, mkWorld [] [] [] []
                    [Tconvert_generic_wrapper "clip.mp4" "dir/clip.mp3" "mp3"
                                              (mkEmitter Converter)] []).
Proof.
  destruct (start_conversion_outfile Sample.env clip_form empty_world)
    as (outfile & Hrun & _ & Hout); [reflexivity..|].
  rewrite Hrun, Hout. reflexivity.
Defined.

(** ** Exceptions stay inside the job *)

Section Returns.

Lemma returns_ret {A} (a : A) : returns (ret a).
Proof. intros w. by exists a. Qed.

Lemma returns_bind {A B} (m : Py A) (f : A -> Py B) :
  returns m -> (forall a, returns (f a)) -> returns (bind m f).
Proof.
  intros Hm Hf w. unfold bind.
  destruct (Hm w) as [a Ha]. destruct (m w) as [[a'|e] w']; cbn in Ha; [|done].
  apply Hf.
Qed.

Lemma returns_try_except {A} (body : Py A) (handler : Exception -> Py A) :
  (forall e, returns (handler e)) -> returns (try_except body handler).
Proof.
  intros Hh w. unfold try_except.
  destruct (body w) as [[a|e] w']; [by exists a|apply Hh].
Qed.

Lemma bind_Ok {A B} (m : Py A) (f : A -> Py B) (w w' : World) (b : B) :
  bind m f w = (Ok b, w') ->
  exists a w1, m w = (Ok a, w1) /\ f a w1 = (Ok b, w').
Proof.
  unfold bind. destruct (m w) as [[a|e] w1]; [eauto|discriminate].
Qed.

Lemma bind_external_Ok {A B} (r : Result A) (a : A) (f : A -> Py B) (w : World) :
  r = Ok a -> bind (external r) f w = f a w.
Proof. by intros ->. Qed.

Lemma ret_Ok {A} (a b : A) (w w' : World) : ret a w = (Ok b, w') -> a = b /\ w = w'.
Proof. unfold ret. by intros [= -> ->]. Qed.

Lemma returns_emit (ev : Event) : returns (emit ev).
Proof. intros w. by exists tt. Qed.

Lemma returns_print (line : string) : returns (print line).
Proof. intros w. by exists tt. Qed.

Lemma returns_if_emitter (emitter : option Emitter) (body : Emitter -> Py unit) :
  (forall em, returns (body em)) -> returns (if_emitter emitter body).
Proof. intros H. destruct emitter; cbn; [apply H|apply returns_ret]. Qed.

End Returns.

Create HintDb py.
#[local] Hint Resolve returns_ret returns_emit returns_print : py.
#[local] Hint Extern 2 (returns (bind _ _)) => apply returns_bind; [|intros ?] : py.
#[local] Hint Extern 2 (returns (if_emitter _ _)) =>
  apply returns_if_emitter; intros ? : py.
#[local] Hint Extern 2 (returns (try_except _ _)) =>
  apply returns_try_except; intros ? : py.
#[local] Hint Extern 1 (returns (log_emit _ _)) => apply returns_emit : py.
#[local] Hint Extern 1 (returns (progress_emit _ _)) => apply returns_emit : py.

Section Steady.

Lemma steady_ret {A} (a : A) : steady (ret a).
Proof. by intros w w'. Qed.

Lemma steady_raise {A} (e : Exception) : steady (@raise A e).
Proof. by intros w w'. Qed.

Lemma steady_external {A} (r : Result A) : steady (external r).
Proof. by intros w w'. Qed.

Lemma steady_check (err : option Exception) : steady (check err).
Proof. intros w w'. by destruct err. Qed.

Lemma steady_emit (ev : Event) : steady (emit ev).
Proof. by intros w w'. Qed.

Lemma steady_enter (a : Adapter) : steady (enter a).
Proof. by intros w w'. Qed.

Lemma steady_write_file (path : string) (a : Artifact) : steady (write_file path a).
Proof. by intros w w'. Qed.

Lemma steady_bind {A B} (m : Py A) (f : A -> Py B) :
  steady m -> (forall a, steady (f a)) -> steady (bind m f).
Proof.
  intros Hm Hf w w'. unfold bind. specialize (Hm w w').
  destruct (m w) as [[a|e] w1], (m w') as [[a'|e'] w1']; cbn in Hm; simplify_eq; [|done].
  apply Hf.
Qed.

Lemma steady_try_except {A} (body : Py A) (handler : Exception -> Py A) :
  steady body -> (forall e, steady (handler e)) -> steady (try_except body handler).
Proof.
  intros Hb Hh w w'. unfold try_except. specialize (Hb w w').
  destruct (body w) as [[a|e] w1], (body w') as [[a'|e'] w1']; cbn in Hb; simplify_eq; [done|].
  apply Hh.
Qed.

Lemma steady_if_emitter (emitter : option Emitter) (body : Emitter -> Py unit) :
  (forall em, steady (body em)) -> steady (if_emitter emitter body).
Proof. intros H. destruct emitter; cbn; [apply H|apply steady_ret]. Qed.

Lemma steady_for_each {A} (l : list A) (body : A -> Py unit) :
  (forall x, steady (body x)) -> steady (for_each l body).
Proof.
  intros H. induction l as [|x r IH]; cbn; [apply steady_ret|].
  apply steady_bind; [apply H|by intros _].
Qed.

End Steady.

#[local] Hint Resolve steady_ret steady_raise steady_external steady_check steady_emit
  steady_enter steady_write_file : py.
#[local] Hint Extern 2 (steady (bind _ _)) => apply steady_bind; [|intros ?] : py.
#[local] Hint Extern 2 (steady (if_emitter _ _)) =>
  apply steady_if_emitter; intros ? : py.
#[local] Hint Extern 2 (steady (try_except _ _)) =>
  apply steady_try_except; [|intros ?] : py.
#[local] Hint Extern 2 (steady (for_each _ _)) => apply steady_for_each; intros ? : py.
#[local] Hint Extern 1 (steady (log_emit _ _)) => apply steady_emit : py.
#[local] Hint Extern 1 (steady (progress_emit _ _)) => apply steady_emit : py.

Lemma p_hook_steady (env : Env) (em : Emitter) (d : HookDict) : steady (p_hook env em d).
Proof.
  unfold p_hook. repeat case_match; auto 10 with py.
Qed.

Lemma fetch_steady (env : Env) (host : Host) (url dir fmt : string)
    (emitter : option Emitter) (cookiefile : option string) :
  steady (fetch env host url dir fmt emitter cookiefile).
Proof.
  unfold fetch, extract_info.
  destruct (YoutubeDL env _ url) as [reports outcome].
  pose proof p_hook_steady. auto 10 with py.
Qed.

Lemma run_adapter_steady (env : Env) (infile outfile target_format : string) :
  steady (run_adapter env infile outfile target_format).
Proof.
  unfold run_adapter, convert_image_with_pillow, convert_document_with_pandoc,
    convert_with_ffmpeg_cmd, save, save_ico.
  repeat case_match; auto 10 with py.
Qed.

(** The test of [yt_download] on its URL. *)
Lemma blank_test (url : string) :
  negb (PyStr.truthy url) || negb (PyStr.truthy (PyStr.strip url)) = PyStr.all_space url.
Proof.
  destruct url as [|c r]; [reflexivity|]. cbn [PyStr.truthy negb orb].
  destruct (PyStr.all_space (String c r)) eqn:Hs.
  - by rewrite strip_all_space.
  - destruct (PyStr.strip (String c r)) eqn:Hst; [|done].
    apply strip_empty_iff in Hst. congruence.
Qed.

(** The branches of [convert_generic] come to three. *)
Lemma convert_generic_branches (env : Env) (infile outfile target_format : string) :
  (if mime_startswith (guess_type env infile) "image" then
     convert_image_with_pillow env infile outfile target_format
   else if PyStr.in_tuple (PyStr.lower target_format) document_targets
           && bool_decide (is_Some (pypandoc env)) then
     convert_document_with_pandoc env infile outfile target_format
   else if mime_startswith (guess_type env infile) "video"
           || mime_startswith (guess_type env infile) "audio" then
     convert_with_ffmpeg_cmd env infile outfile
   else
     convert_with_ffmpeg_cmd env infile outfile)
  = run_adapter env infile outfile target_format.
Proof. unfold run_adapter. by repeat case_match. Qed.

(** Once the output directory is found, a download ends with a message. *)
Lemma yt_download_returns (env : Env) (host : Host) (url outdir fmt : string)
    (emitter : option Emitter) (cookiefile : option string) :
  is_ok (download_dir env host outdir) = true ->
  returns (yt_download env host url outdir fmt emitter cookiefile).
Proof.
  intros Hdir. unfold yt_download. destruct (_ || _); [auto with py|].
  apply returns_bind; [|intros dir; auto 10 with py].
  intros w. unfold external. destruct (download_dir env host outdir); [eauto|done].
Qed.

Lemma convert_generic_returns (env : Env) (infile outfile target_format : string)
    (emitter : option Emitter) :
  returns (convert_generic env infile outfile target_format emitter).
Proof. unfold convert_generic. auto 10 with py. Qed.

Lemma wrapper_returns (target : Py string) (on_done : option (string -> Py unit)) :
  returns (wrapper target on_done).
Proof. unfold wrapper. auto 10 with py. Qed.

(** What the thread body makes of a target that raises. *)
Lemma wrapper_prints (target : Py string) (on_done : option (string -> Py unit))
    (w w' : World) (e : Exception) :
  target w = (Raise e, w') ->
  wrapper target on_done w = print ("Background task error: " +:+ exc_str e) w'.
Proof. intros H. unfold wrapper, try_except, bind. by rewrite H. Qed.

(** The exception that yt-dlp, a hook or the lookup of [settings] raises
    inside the [try] of [yt_download] is the one of the message returned, and
    there is a message of success only when none was raised. *)
Lemma yt_download_converts_exception (env : Env) (host : Host)
    (url outdir dir fmt : string) (emitter : option Emitter)
    (cookiefile : option string) (w : World) :
  PyStr.all_space url = false ->
  download_dir env host outdir = Ok dir ->
  (yt_download env host url outdir fmt emitter cookiefile w).1 =
    match (fetch env host url dir fmt emitter cookiefile w).1 with
    | Ok _ => Ok ("✅ Download complete: " +:+ url)
    | Raise e => Ok ("❌ Error: " +:+ exc_str e)
    end.
Proof.
  intros Hurl Hdir. unfold yt_download. rewrite blank_test, Hurl.
  unfold bind at 1. unfold external. rewrite Hdir.
  unfold try_except.
  match goal with
  | |- context [bind ?m _ w] =>
      assert (Hstart : exists w1, m w = (Ok tt, w1))
        by (destruct emitter; cbn; eauto)
  end.
  destruct Hstart as [w1 Hstart]. unfold bind at 1. rewrite Hstart.
  rewrite (fetch_steady env host url dir fmt emitter cookiefile w w1).
  unfold fetch. destruct (settings_get_error host) as [e0|]; cbn [check].
  - unfold bind, raise. by destruct emitter.
  - unfold bind, ret.
    destruct (extract_info env _ url w1) as [[fn|e] w3]; by destruct emitter.
Qed.

(** The exception that the adapter raises is the one of the message that
    [convert_generic] returns, and there is a message of success only when
    the adapter returned. *)
Lemma convert_generic_converts_exception (env : Env)
    (infile outfile target_format : string) (emitter : option Emitter) (w : World) :
  (convert_generic env infile outfile target_format emitter w).1 =
    match (run_adapter env infile outfile target_format w).1 with
    | Ok _ => Ok ("✅ Converted to " +:+ target_format)
    | Raise e => Ok ("❌ Conversion error: " +:+ exc_str e)
    end.
Proof.
  unfold convert_generic. rewrite convert_generic_branches.
  unfold try_except.
  match goal with
  | |- context [bind ?m _ w] =>
      assert (Hstart : exists w1, m w = (Ok tt, w1))
        by (destruct emitter; cbn; eauto)
  end.
  destruct Hstart as [w1 Hstart]. unfold bind at 1. rewrite Hstart.
  rewrite (run_adapter_steady env infile outfile target_format w w1).
  unfold bind at 1.
  destruct (run_adapter env infile outfile target_format w1) as [[[]|e] w2]; cbn [fst];
    by destruct emitter.
Qed.

(** What holds of the claim: [convert_generic] always ends with a message,
    [yt_download] does once its output directory is found, the message names
    the exception that was raised, and the body of a worker thread ends
    normally for every target and every completion callback, raising or not. *)
Lemma exceptions_become_messages (env : Env) (host : Host) :
  (forall url outdir dir fmt emitter cookiefile w,
     PyStr.all_space url = false ->
     download_dir env host outdir = Ok dir ->
     (yt_download env host url outdir fmt emitter cookiefile w).1 =
       match (fetch env host url dir fmt emitter cookiefile w).1 with
       | Ok _ => Ok ("✅ Download complete: " +:+ url)
       | Raise e => Ok ("❌ Error: " +:+ exc_str e)
       end) /\
  (forall infile outfile target_format emitter w,
     (convert_generic env infile outfile target_format emitter w).1 =
       match (run_adapter env infile outfile target_format w).1 with
       | Ok _ => Ok ("✅ Converted to " +:+ target_format)
       | Raise e => Ok ("❌ Conversion error: " +:+ exc_str e)
       end) /\
  (forall (target : Py string) (on_done : option (string -> Py unit)) w,
     (wrapper target on_done w).1 = Ok tt).
Proof.
  split_and!.
  - intros. by apply yt_download_converts_exception.
  - intros. apply convert_generic_converts_exception.
  - intros target on_done w.
    destruct (wrapper_returns target on_done w) as [[] H]. exact H.
Qed.

(** C2 (the code departs from the claim).  The output directory of a
    download is looked up before the [try]: with no directory given, the
    lookup reads [settings] and, for want of a default, asks for the working
    directory.  When either raises, [yt_download] raises and returns no
    message.  The body of the worker thread catches the exception and prints
    it. *)
Theorem yt_download_raises_before_try (env : Env) (host : Host)
    (url outdir fmt : string) (emitter : option Emitter) (cookiefile : option string)
    (w : World) (e : Exception) :
  PyStr.all_space url = false ->
  download_dir env host outdir = Raise e ->
  yt_download env host url outdir fmt emitter cookiefile w = (Raise e, w) /\
  wrapper (yt_download env host url outdir fmt emitter cookiefile) None w
  = (Ok tt, mkWorld (events w) (invoked w) (outputs w)
                    (stdout w ++ ["Background task error: " +:+ exc_str e])
                    (threads w) (gui_log w)).
Proof.
  intros Hurl Hdir.
  assert (Hrun : yt_download env host url outdir fmt emitter cookiefile w = (Raise e, w)).
  { unfold yt_download. rewrite blank_test, Hurl.
    unfold bind, external. by rewrite Hdir. }
  split; [exact Hrun|].
  by rewrite (wrapper_prints _ _ _ _ _ Hrun).
Qed.

Lemma yt_download_raises_before_try_witness :
  yt_download Sample.env host_list "https://example.com/v" "" "mp4" None None empty_world
  = (Raise (AttributeError "'list' object has no attribute 'get'"), empty_world) /\
  yt_download env_bare host_no_cwd "https://example.com/v" "" "mp4" (Some Sample.em) None
              empty_world
  = (Raise cwd_gone, empty_world).
Proof.
  split.
  - exact (proj1 (yt_download_raises_before_try Sample.env host_list
                    "https://example.com/v" "" "mp4" None None empty_world _
                    eq_refl eq_refl)).
  - exact (proj1 (yt_download_raises_before_try env_bare host_no_cwd
                    "https://example.com/v" "" "mp4" (Some Sample.em) None empty_world _
                    eq_refl eq_refl)).
Defined.

(** ** Running without an observer *)

Section SameOutcome.

Lemma same_ret {A} (a : A) : same_outcome (ret a) (ret a).
Proof. intros w1 w2 H. done. Qed.

Lemma same_bind {A B} (m1 m2 : Py A) (f1 f2 : A -> Py B) :
  same_outcome m1 m2 -> (forall a, same_outcome (f1 a) (f2 a)) ->
  same_outcome (bind m1 f1) (bind m2 f2).
Proof.
  intros Hm Hf w1 w2 Hw. unfold bind.
  destruct (Hm w1 w2 Hw) as [Hr Hw'].
  destruct (m1 w1) as [[a1|e1] w1'], (m2 w2) as [[a2|e2] w2']; cbn [fst snd] in *;
    try discriminate.
  - injection Hr as ->. by apply Hf.
  - injection Hr as ->. cbn [fst snd]. by split.
Qed.

Lemma same_try_except {A} (b1 b2 : Py A) (h1 h2 : Exception -> Py A) :
  same_outcome b1 b2 -> (forall e, same_outcome (h1 e) (h2 e)) ->
  same_outcome (try_except b1 h1) (try_except b2 h2).
Proof.
  intros Hb Hh w1 w2 Hw. unfold try_except.
  destruct (Hb w1 w2 Hw) as [Hr Hw'].
  destruct (b1 w1) as [[a1|e1] w1'], (b2 w2) as [[a2|e2] w2']; cbn [fst snd] in *;
    try discriminate.
  - cbn [fst snd]. by split.
  - injection Hr as ->. by apply Hh.
Qed.

(** A step that only emits can be dropped on either side. *)
Lemma same_skip_l {A} (m : Py unit) (k1 k2 : Py A) :
  only_emits m -> same_outcome k1 k2 -> same_outcome (bind m (fun _ => k1)) k2.
Proof.
  intros Hm Hk w1 w2 Hw. unfold bind.
  destruct (Hm w1) as [Hr Hw1]. destruct (m w1) as [[[]|e] w1']; cbn [fst snd] in *; [|done].
  apply Hk. congruence.
Qed.

Lemma same_skip_r {A} (m : Py unit) (k1 k2 : Py A) :
  only_emits m -> same_outcome k1 k2 -> same_outcome k1 (bind m (fun _ => k2)).
Proof.
  intros Hm Hk w1 w2 Hw. unfold bind.
  destruct (Hm w2) as [Hr Hw2]. destruct (m w2) as [[[]|e] w2']; cbn [fst snd] in *; [|done].
  apply Hk. congruence.
Qed.

Lemma only_emits_ret : only_emits (ret tt).
Proof. intros w. done. Qed.

Lemma only_emits_emit (ev : Event) : only_emits (emit ev).
Proof. intros w. done. Qed.

Lemma only_emits_bind (m k : Py unit) :
  only_emits m -> only_emits k -> only_emits (bind m (fun _ => k)).
Proof.
  intros Hm Hk w. unfold bind.
  destruct (Hm w) as [Hr Hw]. destruct (m w) as [[[]|e] w']; cbn [fst snd] in *; [|done].
  destruct (Hk w') as [Hr' Hw']. split; congruence.
Qed.

Lemma only_emits_if_emitter (emitter : option Emitter) (body : Emitter -> Py unit) :
  (forall em, only_emits (body em)) -> only_emits (if_emitter emitter body).
Proof. intros H. destruct emitter; cbn; [apply H|apply only_emits_ret]. Qed.

Lemma only_emits_for_each {A} (l : list A) (body : A -> Py unit) :
  (forall x, only_emits (body x)) -> only_emits (for_each l body).
Proof.
  intros H. induction l as [|x l IH]; cbn [for_each];
    [apply only_emits_ret|by apply only_emits_bind].
Qed.

Lemma only_emits_for_each_Forall {A} (l : list A) (body : A -> Py unit) :
  Forall (fun x => only_emits (body x)) l -> only_emits (for_each l body).
Proof.
  induction 1 as [|x l Hx Hl IH]; cbn [for_each];
    [apply only_emits_ret|by apply only_emits_bind].
Qed.

(** The status dictionaries on which the hook raises, and what it raises. *)
Lemma p_hook_raises (env : Env) (em : Emitter) (d : HookDict) (w : World) :
  hook_raises d = true ->
  p_hook env em d w
  = (Raise (AttributeError "'NoneType' object has no attribute 'strip'"), w).
Proof.
  unfold hook_raises, status_is, p_hook. intros [Hs Hp]%andb_prop.
  destruct (hd_status d) as [| |s]; try discriminate.
  apply String.eqb_eq in Hs as ->.
  by destruct (hd_percent_str d).
Qed.

(** On every other status dictionary the hook emits and does nothing else. *)
Lemma only_emits_p_hook (env : Env) (em : Emitter) (d : HookDict) :
  hook_raises d = false -> only_emits (p_hook env em d).
Proof.
  unfold hook_raises, status_is, p_hook, log_emit, progress_emit. intros Hd.
  destruct (hd_status d) as [| |s]; try apply only_emits_ret.
  destruct (String.eqb s "downloading") eqn:Hs.
  - apply String.eqb_eq in Hs as ->. cbn [andb] in Hd.
    destruct (hd_percent_str d); try discriminate; cbn [hook_get];
      case_match; apply only_emits_bind; apply only_emits_emit.
  - repeat (case_match; try apply only_emits_ret);
      try (apply only_emits_bind; apply only_emits_emit).
    all: by rewrite String.eqb_refl in Hs.
Qed.

(** The steps that do not look at the events behave the same from worlds
    that differ in their events only. *)
Lemma same_enter (a : Adapter) : same_outcome (enter a) (enter a).
Proof. intros [] [] [= -> -> -> -> ->]. done. Qed.

Lemma same_write_file (path : string) (a : Artifact) :
  same_outcome (write_file path a) (write_file path a).
Proof. intros [] [] [= -> -> -> -> ->]. done. Qed.

Lemma same_external {A} (r : Result A) : same_outcome (external r) (external r).
Proof. intros w1 w2 H. done. Qed.

Lemma same_after_external {A B} (r : Result A) (f1 f2 : A -> Py B) :
  (forall a, r = Ok a -> same_outcome (f1 a) (f2 a)) ->
  same_outcome (bind (external r) f1) (bind (external r) f2).
Proof.
  intros H w1 w2 Hw. unfold bind, external.
  destruct r as [a|e]; [by apply H|done].
Qed.

Lemma same_raise {A} (e : Exception) : same_outcome (@raise A e) (raise e).
Proof. intros w1 w2 H. done. Qed.

Lemma same_check (err : option Exception) : same_outcome (check err) (check err).
Proof. destruct err; [apply same_raise|apply same_ret]. Qed.

End SameOutcome.

Section Silent.

Lemma silent_ret {A} (a : A) : emits_nothing (ret a).
Proof. intros w. done. Qed.

Lemma silent_bind {A B} (m : Py A) (f : A -> Py B) :
  emits_nothing m -> (forall a, emits_nothing (f a)) -> emits_nothing (bind m f).
Proof.
  intros Hm Hf w. unfold bind. specialize (Hm w).
  destruct (m w) as [[a|e] w']; cbn [fst snd] in *; [|done].
  by rewrite Hf.
Qed.

Lemma silent_try_except {A} (body : Py A) (handler : Exception -> Py A) :
  emits_nothing body -> (forall e, emits_nothing (handler e)) ->
  emits_nothing (try_except body handler).
Proof.
  intros Hb Hh w. unfold try_except. specialize (Hb w).
  destruct (body w) as [[a|e] w']; cbn [fst snd] in *; [done|].
  by rewrite Hh.
Qed.

Lemma silent_enter (a : Adapter) : emits_nothing (enter a).
Proof. intros w. done. Qed.

Lemma silent_write_file (path : string) (a : Artifact) :
  emits_nothing (write_file path a).
Proof. intros w. done. Qed.

Lemma silent_external {A} (r : Result A) : emits_nothing (external r).
Proof. intros w. done. Qed.

Lemma silent_check (err : option Exception) : emits_nothing (check err).
Proof. intros w. by destruct err. Qed.

Lemma silent_raise {A} (e : Exception) : emits_nothing (@raise A e).
Proof. intros w. done. Qed.

Lemma silent_for_each {A} (l : list A) (body : A -> Py unit) :
  (forall x, emits_nothing (body x)) -> emits_nothing (for_each l body).
Proof.
  intros H. induction l as [|x l IH]; cbn [for_each]; [apply silent_ret|].
  apply silent_bind; [apply H|done].
Qed.

End Silent.

Section Options.

Variable env : Env.

Lemma update_lookup_congr (kvs : list (string * OptVal))
    (m1 m2 : gmap string OptVal) (k : string) :
  m1 !! k = m2 !! k -> update kvs m1 !! k = update kvs m2 !! k.
Proof.
  unfold update. revert m1 m2.
  induction kvs as [|[k' v] kvs IH]; intros m1 m2 H; cbn [foldl]; [done|].
  apply IH. cbn [fst snd]. rewrite !lookup_insert. by case_decide.
Qed.

(** The emitter shows in the options under ["progress_hooks"] and nowhere
    else. *)
Lemma build_ydl_opts_lookup_emitter (outdir fmt : string) (em : Emitter)
    (cookiefile : option string) (k : string) :
  k <> "progress_hooks" ->
  build_ydl_opts_for_download env outdir fmt (Some em) cookiefile !! k
  = build_ydl_opts_for_download env outdir fmt None cookiefile !! k.
Proof.
  intros Hk. unfold build_ydl_opts_for_download.
  assert (Hbase : forall m : gmap string OptVal,
             match cookiefile with
             | Some c => if PyStr.truthy c then <["cookiefile" := OStr c]>
                           (<["progress_hooks" := OList [OHook em]]> m)
                         else <["progress_hooks" := OList [OHook em]]> m
             | None => <["progress_hooks" := OList [OHook em]]> m
             end !! k
             = match cookiefile with
               | Some c => if PyStr.truthy c then <["cookiefile" := OStr c]> m else m
               | None => m
               end !! k).
  { intros m. destruct cookiefile as [c|]; [destruct (PyStr.truthy c)|].
    - rewrite !lookup_insert. case_decide; [done|]. by rewrite decide_False.
    - by rewrite lookup_insert_ne.
    - by rewrite lookup_insert_ne. }
  destruct (String.eqb fmt "mp3"); [|destruct (String.eqb fmt "mp4")];
    apply update_lookup_congr, Hbase.
Qed.

Lemma build_ydl_opts_no_hooks (outdir fmt : string) (cookiefile : option string) :
  build_ydl_opts_for_download env outdir fmt None cookiefile !! "progress_hooks" = None.
Proof.
  unfold build_ydl_opts_for_download.
  destruct cookiefile as [c|]; try destruct (PyStr.truthy c);
    destruct (String.eqb fmt "mp3"); try destruct (String.eqb fmt "mp4");
    vm_compute; reflexivity.
Qed.

Lemma drop_None_lookup_congr (m1 m2 : gmap string OptVal) (k : string) :
  m1 !! k = m2 !! k -> drop_None m1 !! k = drop_None m2 !! k.
Proof. intros H. unfold drop_None. rewrite !map_lookup_filter. by rewrite H. Qed.

(** What yt-dlp is given, hooks apart, does not depend on the emitter. *)
Lemma ydl_options_same (outdir fmt : string) (em : Emitter) (cookiefile : option string) :
  delete "progress_hooks"
    (drop_None (build_ydl_opts_for_download env outdir fmt (Some em) cookiefile))
  = delete "progress_hooks"
      (drop_None (build_ydl_opts_for_download env outdir fmt None cookiefile)).
Proof.
  apply map_eq. intros k.
  destruct (decide (k = "progress_hooks")) as [->|Hk].
  - by rewrite !lookup_delete_eq.
  - rewrite !lookup_delete_ne by done.
    by apply drop_None_lookup_congr, build_ydl_opts_lookup_emitter.
Qed.

Lemma hooks_of_headless (outdir fmt : string) (cookiefile : option string) :
  hooks_of (drop_None (build_ydl_opts_for_download env outdir fmt None cookiefile)) = [].
Proof.
  unfold hooks_of, drop_None. rewrite map_lookup_filter.
  by rewrite build_ydl_opts_no_hooks.
Qed.

End Options.

Section Headless.

Variable env : Env.
Variable host : Host.

(** yt-dlp answers the same request with or without hooks; the runs agree
    when no hook raises on a status dictionary of the answer. *)
Lemma extract_info_same (opts1 opts2 : gmap string OptVal) (url : string) :
  delete "progress_hooks" opts1 = delete "progress_hooks" opts2 ->
  hooks_of opts1 = [] ->
  Forall (fun d => hook_raises d = false)
         (YoutubeDL env (delete "progress_hooks" opts2) url).1 ->
  same_outcome (extract_info env opts1 url) (extract_info env opts2 url).
Proof.
  intros H Hnone Hsafe. unfold extract_info. rewrite H, Hnone.
  destruct (YoutubeDL env _ url) as [reports outcome]. cbn [fst] in Hsafe.
  apply same_bind; [apply same_enter|intros _].
  apply same_skip_l, same_skip_r, same_external.
  - apply only_emits_for_each; intros d. apply only_emits_ret.
  - apply only_emits_for_each_Forall. eapply Forall_impl; [exact Hsafe|].
    intros d Hd. apply only_emits_for_each; intros em. by apply only_emits_p_hook.
Qed.

Lemma only_emits_log_progress (em : Emitter) (text : string) (p : Percent) :
  only_emits (log_emit em text ;; progress_emit em p).
Proof. apply only_emits_bind; apply only_emits_emit. Qed.

(** A download without an emitter and one with an emitter end in the same
    way, the events apart, when the hook raises on no status dictionary of
    the answer of yt-dlp. *)
Lemma yt_download_same (url outdir fmt : string) (em : Emitter)
    (cookiefile : option string) :
  (forall dir, download_dir env host outdir = Ok dir ->
     Forall (fun d => hook_raises d = false)
            (download_answer env url dir fmt cookiefile).1) ->
  same_outcome (yt_download env host url outdir fmt None cookiefile)
               (yt_download env host url outdir fmt (Some em) cookiefile).
Proof.
  intros Hsafe.
  unfold yt_download. destruct (_ || _); [apply same_ret|].
  apply same_after_external. intros dir Hdir. specialize (Hsafe dir Hdir).
  apply same_try_except.
  - apply same_skip_l; [apply only_emits_ret|].
    apply same_skip_r; [apply only_emits_log_progress|].
    apply same_bind; [apply same_check|intros _].
    apply same_bind.
    + apply extract_info_same.
      * symmetry. apply ydl_options_same.
      * apply hooks_of_headless.
      * unfold download_answer in Hsafe. by rewrite ydl_options_same.
    + intros filename.
      apply same_skip_l; [apply only_emits_ret|].
      apply same_skip_r; [apply only_emits_log_progress|].
      apply same_ret.
  - intros e.
    apply same_skip_l; [apply only_emits_ret|].
    apply same_skip_r; [apply only_emits_log_progress|].
    apply same_ret.
Qed.

Lemma save_same (pil : Pillow) (im : PImage) (outfile format : string)
    (sizes : list (Z * Z)) :
  same_outcome (save pil im outfile format sizes) (save pil im outfile format sizes).
Proof.
  unfold save. apply same_bind; [apply same_check|intros _; apply same_write_file].
Qed.

Lemma convert_image_with_pillow_same (infile outfile target_format : string) :
  same_outcome (convert_image_with_pillow env infile outfile target_format)
               (convert_image_with_pillow env infile outfile target_format).
Proof.
  unfold convert_image_with_pillow.
  apply same_bind; [apply same_enter|intros _].
  destruct (Image env) as [pil|]; [|apply same_raise].
  apply same_bind; [apply same_check|intros _].
  repeat case_match; try apply save_same.
  unfold save_ico. apply same_bind; [apply same_check|intros _; apply same_write_file].
Qed.

Lemma convert_with_ffmpeg_cmd_same (infile outfile : string) :
  same_outcome (convert_with_ffmpeg_cmd env infile outfile)
               (convert_with_ffmpeg_cmd env infile outfile).
Proof.
  unfold convert_with_ffmpeg_cmd.
  apply same_bind; [apply same_enter|intros _].
  apply same_bind; [apply same_check|intros _; apply same_write_file].
Qed.

Lemma convert_document_with_pandoc_same (infile outfile target_format : string) :
  same_outcome (convert_document_with_pandoc env infile outfile target_format)
               (convert_document_with_pandoc env infile outfile target_format).
Proof.
  unfold convert_document_with_pandoc.
  apply same_bind; [apply same_enter|intros _].
  destruct (pypandoc env) as [convert_file|]; [|apply same_raise].
  apply same_bind; [apply same_check|intros _; apply same_write_file].
Qed.

Lemma convert_generic_same (infile outfile target_format : string) (em : Emitter) :
  same_outcome (convert_generic env infile outfile target_format None)
               (convert_generic env infile outfile target_format (Some em)).
Proof.
  unfold convert_generic. apply same_try_except.
  - apply same_skip_l; [apply only_emits_ret|].
    apply same_skip_r; [apply only_emits_emit|].
    apply same_bind.
    + repeat case_match;
        auto using convert_image_with_pillow_same, convert_with_ffmpeg_cmd_same,
                   convert_document_with_pandoc_same.
    + intros _.
      apply same_skip_l; [apply only_emits_ret|].
      apply same_skip_r; [apply only_emits_emit|].
      apply same_ret.
  - intros e.
    apply same_skip_l; [apply only_emits_ret|].
    apply same_skip_r; [apply only_emits_emit|].
    apply same_ret.
Qed.

Lemma yt_download_headless_silent (url outdir fmt : string) (cookiefile : option string) :
  emits_nothing (yt_download env host url outdir fmt None cookiefile).
Proof.
  unfold yt_download. destruct (_ || _); [apply silent_ret|].
  apply silent_bind; [apply silent_external|intros dir].
  apply silent_try_except.
  - apply silent_bind; [apply silent_ret|intros _].
    apply silent_bind; [apply silent_check|intros _].
    apply silent_bind.
    + unfold extract_info. rewrite hooks_of_headless.
      apply silent_bind; [apply silent_enter|intros _].
      destruct (YoutubeDL env _ url) as [reports outcome].
      apply silent_bind; [|intros _; apply silent_external].
      apply silent_for_each. intros d. apply silent_ret.
    + intros filename. apply silent_bind; [apply silent_ret|intros _; apply silent_ret].
  - intros e. apply silent_bind; [apply silent_ret|intros _; apply silent_ret].
Qed.

Lemma convert_generic_headless_silent (infile outfile target_format : string) :
  emits_nothing (convert_generic env infile outfile target_format None).
Proof.
  assert (Hsave : forall pil im out format sizes,
             emits_nothing (save pil im out format sizes)).
  { intros. apply silent_bind; [apply silent_check|intros _; apply silent_write_file]. }
  assert (Hico : forall pil im out sizes, emits_nothing (save_ico pil im out sizes)).
  { intros. apply silent_bind; [apply silent_check|intros _; apply silent_write_file]. }
  unfold convert_generic. apply silent_try_except.
  - apply silent_bind; [apply silent_ret|intros _].
    apply silent_bind.
    + unfold convert_image_with_pillow, convert_document_with_pandoc,
        convert_with_ffmpeg_cmd.
      repeat case_match;
        repeat first [ apply Hsave | apply Hico | apply silent_raise | apply silent_write_file
                     | apply silent_enter | apply silent_check
                     | apply silent_bind; [|intros ?] ].
    + intros _. apply silent_bind; [apply silent_ret|intros _; apply silent_ret].
  - intros e. apply silent_bind; [apply silent_ret|intros _; apply silent_ret].
Qed.

End Headless.

(** What holds of the claim.  A conversion run with [emitter = None]
    returns, and returns the very message of the run with an emitter.  So
    does a download whose output directory is found, when the hook raises on
    no status dictionary that yt-dlp reports.  In both cases the headless
    run emits no event, and the two runs leave the same world, the emitted
    events apart. *)
Lemma headless_same_outcome (env : Env) (host : Host) (em : Emitter) :
  (forall url outdir fmt cookiefile w,
     (forall dir, download_dir env host outdir = Ok dir ->
        Forall (fun d => hook_raises d = false)
               (download_answer env url dir fmt cookiefile).1) ->
     (yt_download env host url outdir fmt None cookiefile w).1
     = (yt_download env host url outdir fmt (Some em) cookiefile w).1
     /\ (is_ok (download_dir env host outdir) = true ->
         is_ok (yt_download env host url outdir fmt None cookiefile w).1 = true)
     /\ events (yt_download env host url outdir fmt None cookiefile w).2 = events w
     /\ hide_events (yt_download env host url outdir fmt None cookiefile w).2
        = hide_events (yt_download env host url outdir fmt (Some em) cookiefile w).2) /\
  (forall infile outfile target_format w,
     (convert_generic env infile outfile target_format None w).1
     = (convert_generic env infile outfile target_format (Some em) w).1
     /\ is_ok (convert_generic env infile outfile target_format None w).1 = true
     /\ events (convert_generic env infile outfile target_format None w).2 = events w
     /\ hide_events (convert_generic env infile outfile target_format None w).2
        = hide_events (convert_generic env infile outfile target_format (Some em) w).2).
Proof.
  split.
  - intros url outdir fmt cookiefile w Hsafe.
    destruct (yt_download_same env host url outdir fmt em cookiefile Hsafe w w eq_refl)
      as [Hr Hw].
    split_and!; [done| |apply yt_download_headless_silent|done].
    intros Hdir.
    destruct (yt_download_returns env host url outdir fmt None cookiefile Hdir w)
      as [msg Hmsg].
    by rewrite Hmsg.
  - intros infile outfile target_format w.
    destruct (convert_generic_same env infile outfile target_format em w w eq_refl)
      as [Hr Hw].
    destruct (convert_generic_returns env infile outfile target_format None w)
      as [msg Hmsg].
    split_and!; [done|by rewrite Hmsg|apply convert_generic_headless_silent|done].
Qed.

(** A hook that raises changes the message: where yt-dlp reports a download
    in progress with a percentage of [None] and then succeeds, the headless
    run reports the success and the run with an emitter reports the
    exception of the hook. *)
Example raising_hook_changes_message :
  (yt_download env_percent_None sound "https://example.com/v" "/out" "mp4" None None
               empty_world).1
  = Ok "✅ Download complete: https://example.com/v" /\
  (yt_download env_percent_None sound "https://example.com/v" "/out" "mp4"
               (Some Sample.em) None empty_world).1
  = Ok "❌ Error: 'NoneType' object has no attribute 'strip'".
Proof. split; vm_compute; reflexivity. Qed.

(** C9 (the code departs from the claim).  A download without an emitter
    whose output directory is not given raises when the lookup of the
    directory raises, which happens before the [try]: the headless run ends
    with an error and returns no message.  The run with an emitter raises
    the same exception; neither emits an event. *)
Theorem headless_download_raises (env : Env) (host : Host) (url outdir fmt : string)
    (em : Emitter) (cookiefile : option string) (w : World) (e : Exception) :
  PyStr.all_space url = false ->
  download_dir env host outdir = Raise e ->
  is_ok (yt_download env host url outdir fmt None cookiefile w).1 = false /\
  (yt_download env host url outdir fmt None cookiefile w).1 = Raise e /\
  (yt_download env host url outdir fmt (Some em) cookiefile w).1 = Raise e /\
  events (yt_download env host url outdir fmt None cookiefile w).2 = events w /\
  events (yt_download env host url outdir fmt (Some em) cookiefile w).2 = events w.
Proof.
  intros Hurl Hdir.
  assert (Hrun : forall emitter,
             yt_download env host url outdir fmt emitter cookiefile w = (Raise e, w)).
  { intros emitter. unfold yt_download. rewrite blank_test, Hurl.
    unfold bind, external. by rewrite Hdir. }
  by rewrite !Hrun.
Qed.

Lemma headless_download_raises_witness :
  (yt_download env_bare host_no_cwd "https://example.com/v" "" "mp3" None None
               empty_world).1
  = Raise cwd_gone /\
  (yt_download Sample.env host_list "https://example.com/v" "" "mp3" None None
               empty_world).1
  = Raise (AttributeError "'list' object has no attribute 'get'").
Proof.
  split.
  - exact (proj1 (proj2 (headless_download_raises env_bare host_no_cwd
                           "https://example.com/v" "" "mp3" Sample.em None empty_world _
                           eq_refl eq_refl))).
  - exact (proj1 (proj2 (headless_download_raises Sample.env host_list
                           "https://example.com/v" "" "mp3" Sample.em None empty_world _
                           eq_refl eq_refl))).
Defined.

(** ** Dispatch *)

Section Enters.

Lemma enters_ret {A} (a : A) : enters [] (ret a).
Proof. intros w. cbn. by rewrite app_nil_r. Qed.

Lemma enters_raise {A} (e : Exception) : enters [] (@raise A e).
Proof. intros w. cbn. by rewrite app_nil_r. Qed.

Lemma enters_emit (ev : Event) : enters [] (emit ev).
Proof. intros w. cbn. by rewrite app_nil_r. Qed.

Lemma enters_check (err : option Exception) : enters [] (check err).
Proof. destruct err; [apply enters_raise|apply enters_ret]. Qed.

Lemma enters_write_file (path : string) (a : Artifact) : enters [] (write_file path a).
Proof. intros w. cbn. by rewrite app_nil_r. Qed.

Lemma enters_if_emitter (emitter : option Emitter) (text : string) :
  enters [] (if_emitter emitter (fun em => log_emit em text)).
Proof. destruct emitter; [apply enters_emit|apply enters_ret]. Qed.

Lemma enters_enter (a : Adapter) : enters [a] (enter a).
Proof. intros w. done. Qed.

(** Once [m] has entered [l], a continuation that enters nothing leaves
    [l], whether [m] raised or not. *)
Lemma enters_bind {A B} (l : list Adapter) (m : Py A) (f : A -> Py B) :
  enters l m -> (forall a, enters [] (f a)) -> enters l (bind m f).
Proof.
  intros Hm Hf w. unfold bind. specialize (Hm w).
  destruct (m w) as [[a|e] w']; cbn [fst snd] in *; [|done].
  by rewrite Hf, app_nil_r.
Qed.

Lemma enters_after_emits {A} (l : list Adapter) (m : Py unit) (k : Py A) :
  only_emits m -> enters l k -> enters l (bind m (fun _ => k)).
Proof.
  intros Hm Hk w. unfold bind. destruct (Hm w) as [Hr Hw].
  destruct (m w) as [[[]|e] w']; cbn [fst snd] in *; [|done].
  rewrite Hk. by injection Hw as ->.
Qed.

Lemma enters_try_except {A} (l : list Adapter) (body : Py A)
    (handler : Exception -> Py A) :
  enters l body -> (forall e, enters [] (handler e)) ->
  enters l (try_except body handler).
Proof.
  intros Hb Hh w. unfold try_except. specialize (Hb w).
  destruct (body w) as [[a|e] w']; cbn [fst snd] in *; [done|].
  by rewrite Hh, app_nil_r.
Qed.

Variable env : Env.

Lemma enters_save (pil : Pillow) (im : PImage) (outfile format : string)
    (sizes : list (Z * Z)) :
  enters [] (save pil im outfile format sizes).
Proof.
  apply enters_bind; [apply enters_check|intros _; apply enters_write_file].
Qed.

Lemma convert_image_with_pillow_enters (infile outfile target_format : string) :
  enters [RasterImage] (convert_image_with_pillow env infile outfile target_format).
Proof.
  unfold convert_image_with_pillow.
  apply enters_bind; [apply enters_enter|intros _].
  destruct (Image env) as [pil|]; [|apply enters_raise].
  apply enters_bind; [apply enters_check|intros _].
  repeat case_match; try apply enters_save.
  unfold save_ico.
  apply enters_bind; [apply enters_check|intros _; apply enters_write_file].
Qed.

Lemma convert_with_ffmpeg_cmd_enters (infile outfile : string) :
  enters [AudioVideo] (convert_with_ffmpeg_cmd env infile outfile).
Proof.
  unfold convert_with_ffmpeg_cmd.
  apply enters_bind; [apply enters_enter|intros _].
  apply enters_bind; [apply enters_check|intros _; apply enters_write_file].
Qed.

Lemma convert_document_with_pandoc_enters (infile outfile target_format : string) :
  enters [Document] (convert_document_with_pandoc env infile outfile target_format).
Proof.
  unfold convert_document_with_pandoc.
  apply enters_bind; [apply enters_enter|intros _].
  destruct (pypandoc env) as [convert_file|]; [|apply enters_raise].
  apply enters_bind; [apply enters_check|intros _; apply enters_write_file].
Qed.

End Enters.

Lemma prefix_cons (a c : ascii) (s1 s : string) :
  String.prefix (String a s1) (String c s)
  = if ascii_dec a c then String.prefix s1 s else false.
Proof. reflexivity. Qed.

(** A media type that starts with "image" starts with neither "video" nor
    "audio". *)
Lemma image_not_video_audio (mime : option string) :
  mime_startswith mime "image" = true ->
  mime_startswith mime "video" = false /\ mime_startswith mime "audio" = false.
Proof.
  destruct mime as [[|c m]|]; cbn [mime_startswith PyStr.truthy andb]; try done.
  unfold PyStr.startswith. rewrite !prefix_cons.
  destruct (ascii_dec "i" c) as [<-|]; [|done]. intros _.
  destruct (ascii_dec "v" "i"), (ascii_dec "a" "i"); done.
Qed.

Lemma classify_image (mime : option string) :
  is_image (classify mime) = mime_startswith mime "image".
Proof.
  unfold classify.
  destruct (mime_startswith mime "image") eqn:Hi.
  - destruct (image_not_video_audio mime Hi) as [-> ->]. done.
  - destruct (mime_startswith mime "video"), (mime_startswith mime "audio"); try done.
    destruct mime as [m|]; [|done]. by destruct (_ && _).
Qed.

(** C3 (as the code has it).  A conversion enters exactly one backend.  A
    source of category Image goes to the raster-image adapter whether or not
    Pillow is present; any other source with a target in the document list
    (in any letter case) goes to the document adapter when pypandoc is
    present; everything else goes to the audio/video adapter.  For a source
    of unknown category this is the audio/video adapter unless the second
    rule applies. *)
Theorem convert_generic_dispatch (env : Env) (infile outfile target_format : string)
    (emitter : option Emitter) (w : World) :
  invoked (convert_generic env infile outfile target_format emitter w).2
  = (invoked w ++ [dispatch (bool_decide (is_Some (pypandoc env)))
                            (classify (guess_type env infile)) target_format])%list
  /\ dispatch (bool_decide (is_Some (pypandoc env))) Unknown target_format
     = if PyStr.in_tuple (PyStr.lower target_format) document_targets
          && bool_decide (is_Some (pypandoc env))
       then Document else AudioVideo.
Proof.
  split; [|reflexivity].
  revert w.
  change (enters [dispatch (bool_decide (is_Some (pypandoc env)))
                           (classify (guess_type env infile)) target_format]
                 (convert_generic env infile outfile target_format emitter)).
  unfold convert_generic, dispatch. rewrite classify_image.
  apply enters_try_except.
  - apply enters_after_emits.
    { destruct emitter; [apply only_emits_emit|apply only_emits_ret]. }
    apply enters_bind.
    + destruct (mime_startswith _ "image");
        [apply convert_image_with_pillow_enters|].
      destruct (_ && _); [apply convert_document_with_pandoc_enters|].
      destruct (_ || _); apply convert_with_ffmpeg_cmd_enters.
    + intros _. apply enters_bind; [apply enters_if_emitter|intros _; apply enters_ret].
  - intros e. apply enters_bind; [apply enters_if_emitter|intros _; apply enters_ret].
Qed.

(** C3 (the claim as worded fails).  With Pillow missing and pypandoc
    present, an image sent to pdf enters the raster-image adapter, where the
    four rules send it to the document adapter; and a source of unknown
    category sent to pdf enters the document adapter, not the audio/video
    adapter. *)
Lemma dispatch_departs_from_rules :
  (classify (guess_type Sample.env_no_pillow "photo.png") = Image_ /\
   invoked (convert_generic Sample.env_no_pillow "photo.png" "dir/photo.pdf" "pdf"
                            None empty_world).2 = [RasterImage] /\
   spec_resolve false true Image_ "pdf" = Document) /\
  (classify (guess_type Sample.env "data.bin") = Unknown /\
   invoked (convert_generic Sample.env "data.bin" "dir/data.pdf" "pdf"
                            None empty_world).2 = [Document] /\
   Document <> AudioVideo).
Proof. split_and!; try reflexivity. discriminate. Qed.

(** ** The raster-image adapter *)






(** The image handed to the encoder for a JPEG target has no alpha band. *)
Lemma on_white_no_alpha (img : PImage) : has_alpha (mode_of (on_white img)) = false.
Proof. reflexivity. Qed.

(** With the target spelled jpeg, the source is pasted on white and the
    result is what gets encoded. *)
Lemma jpeg_target_composites (env : Env) (pil : Pillow) (infile outfile : string)
    (w : World) :
  Image env = Some pil ->
  open_error pil infile "RGBA" = None ->
  save_error pil (on_white (ImOpen infile "RGBA")) outfile "JPEG" [] = None ->
  convert_image_with_pillow env infile outfile "jpeg" w
  = (Ok tt,
     mkWorld (events w) (invoked w ++ [RasterImage])
             (outputs w ++ [(outfile, PillowFile "JPEG" (on_white (ImOpen infile "RGBA")) [])])
             (stdout w) (threads w) (gui_log w)).
Proof.
  intros Hpil Hopen Hsave.
  unfold convert_image_with_pillow, save, bind, enter.
  rewrite Hpil. unfold check. cbn [events invoked outputs stdout threads gui_log].
  rewrite Hopen. cbn [ret].
  change (PyStr.upper (PyStr.lower "jpeg")) with "JPEG".
  cbn -[on_white]. unfold on_white in Hsave. rewrite Hsave. reflexivity.
Qed.

(** With the target spelled jpg, the encoder is asked for JPG; when it
    raises, so does the adapter, after the paste and before any write. *)
Lemma jpg_adapter_raises (env : Env) (pil : Pillow) (infile outfile : string)
    (e : Exception) (w : World) :
  Image env = Some pil ->
  open_error pil infile "RGBA" = None ->
  save_error pil (on_white (ImOpen infile "RGBA")) outfile "JPG" [] = Some e ->
  convert_image_with_pillow env infile outfile "jpg" w
  = (Raise e,
     mkWorld (events w) (invoked w ++ [RasterImage]) (outputs w)
             (stdout w) (threads w) (gui_log w)).
Proof.
  intros Hpil Hopen Hsave.
  unfold convert_image_with_pillow, save, bind, enter.
  rewrite Hpil. unfold check. cbn [events invoked outputs stdout threads gui_log].
  rewrite Hopen. cbn [ret].
  change (PyStr.upper (PyStr.lower "jpg")) with "JPG".
  cbn -[on_white]. unfold on_white in Hsave. rewrite Hsave. reflexivity.
Qed.

(** C4 (the code departs from the claim).  For the target jpg the source is
    pasted on white, but the encoder is asked for the format of name JPG,
    the target in upper case.  Pillow registers its JPEG encoder under the
    name JPEG only, and so raises; the conversion then ends with the error
    message and writes no file. *)
Theorem jpg_target_not_encoded (env : Env) (pil : Pillow) (infile outfile : string)
    (emitter : option Emitter) (e : Exception) (w : World) :
  mime_startswith (guess_type env infile) "image" = true ->
  Image env = Some pil ->
  open_error pil infile "RGBA" = None ->
  save_error pil (on_white (ImOpen infile "RGBA")) outfile "JPG" [] = Some e ->
  (convert_generic env infile outfile "jpg" emitter w).1
  = Ok ("❌ Conversion error: " +:+ exc_str e)
  /\ outputs (convert_generic env infile outfile "jpg" emitter w).2 = outputs w.
Proof.
  intros Hmime Hpil Hopen Hsave.
  unfold convert_generic, try_except, bind. rewrite Hmime.
  destruct emitter as [em|]; cbn [if_emitter log_emit emit ret];
    rewrite (jpg_adapter_raises env pil infile outfile e) by done; done.
Qed.

Lemma jpg_target_not_encoded_witness :
  (convert_generic Sample.env "photo.png" "dir/photo.jpg" "jpg" (Some Sample.em)
                   empty_world).1
  = Ok "❌ Conversion error: 'JPG'"
  /\ outputs (convert_generic Sample.env "photo.png" "dir/photo.jpg" "jpg"
                              (Some Sample.em) empty_world).2 = [].
Proof.
  exact (jpg_target_not_encoded Sample.env Sample.pillow "photo.png" "dir/photo.jpg"
           (Some Sample.em) (Sample.KeyError "JPG") empty_world
           eq_refl eq_refl eq_refl eq_refl).
Defined.

(** ** The conversion job *)

(** Whatever the conversion returns, the job goes on to emit 80, the
    message and 100. *)
Lemma convert_generic_wrapper_trace (env : Env) (infile outfile target : string)
    (em : Emitter) (w : World) :
  exists res w1,
    convert_generic env infile outfile target (Some em)
      (emitted w [LogLine ("Starting conversion: " +:+ OsPath.basename infile +:+ " → "
                           +:+ OsPath.basename outfile);
                  Progress (PctLit 0)])
    = (Ok res, w1) /\
    convert_generic_wrapper env infile outfile target (Some em) w
    = (Ok res, emitted w1 [Progress (PctLit 80); LogLine res; Progress (PctLit 100)]).
Proof.
  set (w0 := emitted w _).
  destruct (convert_generic_returns env infile outfile target (Some em) w0) as [res Hres].
  destruct (convert_generic env infile outfile target (Some em) w0) as [r w1] eqn:Hrun.
  cbn in Hres. subst r. exists res, w1. split; [done|].
  unfold convert_generic_wrapper, try_except, bind, attr, ret, log_emit, progress_emit, emit.
  cbn [events invoked outputs stdout threads gui_log].
  rewrite <- app_assoc. cbn [app].
  fold (emitted w [LogLine ("Starting conversion: " +:+ OsPath.basename infile +:+ " → "
                             +:+ OsPath.basename outfile); Progress (PctLit 0)]).
  fold w0. rewrite Hrun. unfold emitted. cbn [events invoked outputs stdout threads gui_log].
  by rewrite <- !app_assoc.
Qed.

(** Every conversion job ends its events with [Progress(100)]. *)
Lemma convert_generic_wrapper_ends_at_100 (env : Env) (infile outfile target : string)
    (em : Emitter) (w : World) :
  last (events (convert_generic_wrapper env infile outfile target (Some em) w).2)
  = Some (Progress (PctLit 100)).
Proof.
  destruct (convert_generic_wrapper_trace env infile outfile target em w)
    as (res & w1 & _ & ->).
  cbn [snd emitted events].
  by rewrite (last_app _ [Progress (PctLit 80); LogLine res; Progress (PctLit 100)]).
Qed.

(** C1 (the code departs from the claim).  In every run of a conversion job
    in which the adapter attempt fails with an exception [e], the job returns
    the error message, and the events it emits end with 80, the error line
    and [Progress(100)]: the progress of the failed run reaches 100, and no
    [Progress(0)] follows the failure. *)
Theorem failed_conversion_reaches_100 (env : Env) (infile outfile target : string)
    (em : Emitter) (e : Exception) (w : World) :
  (convert_generic env infile outfile target (Some em)
     (emitted w [LogLine ("Starting conversion: " +:+ OsPath.basename infile +:+ " → "
                          +:+ OsPath.basename outfile);
                 Progress (PctLit 0)])).1
  = Ok ("❌ Conversion error: " +:+ exc_str e) ->
  (convert_generic_wrapper env infile outfile target (Some em) w).1
  = Ok ("❌ Conversion error: " +:+ exc_str e)
  /\ exists evs,
       events (convert_generic_wrapper env infile outfile target (Some em) w).2
       = (evs ++ [Progress (PctLit 80);
                  LogLine ("❌ Conversion error: " +:+ exc_str e);
                  Progress (PctLit 100)])%list.
Proof.
  intros Hfail.
  destruct (convert_generic_wrapper_trace env infile outfile target em w)
    as (res & w1 & Hrun & ->).
  rewrite Hrun in Hfail. cbn [fst] in Hfail. injection Hfail as ->.
  split; [reflexivity|].
  exists (events w1). reflexivity.
Qed.

Lemma failed_conversion_reaches_100_witness :
  (convert_generic_wrapper Sample.env_no_ffmpeg "clip.mp4" "dir/clip.mp3" "mp3"
                           (Some Sample.em) empty_world).1
  = Ok "❌ Conversion error: [Errno 2] No such file or directory: 'ffmpeg'"
  /\ exists evs,
       events (convert_generic_wrapper Sample.env_no_ffmpeg "clip.mp4" "dir/clip.mp3"
                                       "mp3" (Some Sample.em) empty_world).2
       = (evs ++ [Progress (PctLit 80);
                  LogLine "❌ Conversion error: [Errno 2] No such file or directory: 'ffmpeg'";
                  Progress (PctLit 100)])%list.
Proof.
  exact (failed_conversion_reaches_100 Sample.env_no_ffmpeg "clip.mp4" "dir/clip.mp3"
           "mp3" Sample.em (Sample.FileNotFoundError "ffmpeg") empty_world eq_refl).
Defined.

(** The whole run at this input: the error line is emitted twice, and the
    progress goes 0, 80, 100. *)
Example missing_ffmpeg_run :
  convert_generic_wrapper Sample.env_no_ffmpeg "clip.mp4" "dir/clip.mp3" "mp3"
                          (Some Sample.em) empty_world
  = (Ok "❌ Conversion error: [Errno 2] No such file or directory: 'ffmpeg'",
     mkWorld
       [ LogLine "Starting conversion: clip.mp4 → clip.mp3";
         Progress (PctLit 0);
         LogLine "Converting clip.mp4 → clip.mp3";
         LogLine "❌ Conversion error: [Errno 2] No such file or directory: 'ffmpeg'";
         Progress (PctLit 80);
         LogLine "❌ Conversion error: [Errno 2] No such file or directory: 'ffmpeg'";
         Progress (PctLit 100) ]
       [AudioVideo] [] [] [] []).
Proof. reflexivity. Qed.

(** The download job, in contrast, once its output directory is found,
    ends a failed run with the error line and [Progress(0)], and a
    successful one with [Progress(100)]. *)
Lemma yt_download_outcomes (env : Env) (host : Host) (url outdir dir fmt : string)
    (em : Emitter) (cookiefile : option string) (w : World) :
  download_dir env host outdir = Ok dir ->
  yt_download env host url outdir fmt (Some em) cookiefile w = (Ok "❌ No URL provided", w)
  \/ (exists filename evs,
        (yt_download env host url outdir fmt (Some em) cookiefile w).1
        = Ok ("✅ Download complete: " +:+ url) /\
        events (yt_download env host url outdir fmt (Some em) cookiefile w).2
        = (evs ++ [LogLine ("Saved: " +:+ filename); Progress (PctLit 100)])%list)
  \/ (exists e evs,
        (yt_download env host url outdir fmt (Some em) cookiefile w).1
        = Ok ("❌ Error: " +:+ exc_str e) /\
        events (yt_download env host url outdir fmt (Some em) cookiefile w).2
        = (evs ++ [LogLine ("❌ Error: " +:+ exc_str e); Progress (PctLit 0)])%list).
Proof.
  intros Hdir. unfold yt_download.
  destruct (_ || _); [by left|right].
  rewrite (bind_external_Ok _ _ _ _ Hdir).
  unfold try_except.
  match goal with |- context [match ?b w with _ => _ end] => set (body := b) end.
  destruct (body w) as [[a|e] w'] eqn:Hb.
  - left. subst body.
    apply bind_Ok in Hb as (? & w1 & _ & Hb).
    apply bind_Ok in Hb as (? & w1' & _ & Hb).
    apply bind_Ok in Hb as (filename & w2 & _ & Hb).
    apply bind_Ok in Hb as (? & w3 & Hem & Hb).
    apply ret_Ok in Hb as [<- <-].
    exists filename, (events w2). split; [done|].
    cbn in Hem. injection Hem as _ <-. cbn. by rewrite <- app_assoc.
  - right. exists e, (events w'). split; [done|].
    cbn. by rewrite <- app_assoc.
Qed.

(** * Further properties *)

(** ** Saving and reloading the settings *)

(** X1.  A settings dictionary that has both default keys survives a
    successful save followed by a load unchanged. *)
Theorem save_then_load (home : string) (d : gmap string JVal) (st : Store) :
  is_Some (d !! "ffmpeg_path") ->
  is_Some (d !! "default_output") ->
  load_settings home (st_file (save_settings (JDict d) Written st)) = JDict d.
Proof.
  intros Ha Hb. cbn [save_settings st_file].
  unfold load_settings, DEFAULT_SETTINGS. cbn [fill_defaults py_in].
  rewrite bool_decide_eq_true_2 by done.
  by rewrite bool_decide_eq_true_2 by done.
Qed.

Lemma save_then_load_witness :
  load_settings "/home/u/Downloads"
    (st_file (save_settings (st_settings sample_store) Written sample_store))
  = st_settings sample_store.
Proof.
  apply (save_then_load "/home/u/Downloads" _ sample_store).
  - exists (JStr ""). reflexivity.
  - exists (JStr "/home/u/Downloads"). reflexivity.
Defined.

(** A failed save changes neither the settings in memory nor what was
    printed before; it prints one line. *)
Lemma save_settings_failure (s : JVal) (e : Exception) (residue : SettingsFile)
    (st : Store) :
  st_settings (save_settings s (WriteFailed e residue) st) = st_settings st /\
  st_stdout (save_settings s (WriteFailed e residue) st)
  = (st_stdout st ++ ["Failed to save settings: " +:+ exc_str e])%list.
Proof. done. Qed.

Lemma set_folder_saved (home key folder : string) (d : gmap string JVal) (st : Store) :
  PyStr.truthy folder = true ->
  st_settings st = JDict d ->
  (set_folder key folder Written st).1 = Raise youtube_log_append /\
  st_settings (set_folder key folder Written st).2 = JDict (<[key := JStr folder]> d) /\
  st_stdout (set_folder key folder Written st).2 = st_stdout st /\
  exists d',
    load_settings home (st_file (set_folder key folder Written st).2) = JDict d' /\
    d' !! key = Some (JStr folder) /\
    has_default_keys home (JDict d').
Proof.
  intros Hf Hs. unfold set_folder. rewrite Hf, Hs. cbn.
  split_and!; try done.
  destruct (load_settings_keeps_entries home (<[key := JStr folder]> d)) as (d' & Hl & Hsub).
  exists d'. split_and!; [done| |].
  - eapply lookup_weaken; [apply lookup_insert_eq|done].
  - rewrite <- Hl. apply load_settings_three_cases. eauto.
Qed.

(** X2.  Choosing a folder in the Settings menu stores it under its key in
    the settings and saves them, so that a later load returns it among a
    full set of keys; the line that should confirm it in the log is never
    appended, since the call to [youtube_log_append] raises AttributeError.
    A cancelled dialog changes nothing. *)
Theorem settings_menu_stores_folder (home folder : string) (d : gmap string JVal)
    (st : Store) :
  PyStr.truthy folder = true ->
  st_settings st = JDict d ->
  ((set_ffmpeg_folder folder Written st).1 = Raise youtube_log_append /\
   st_settings (set_ffmpeg_folder folder Written st).2
   = JDict (<["ffmpeg_path" := JStr folder]> d) /\
   exists d',
     load_settings home (st_file (set_ffmpeg_folder folder Written st).2) = JDict d' /\
     d' !! "ffmpeg_path" = Some (JStr folder) /\ has_default_keys home (JDict d')) /\
  ((set_default_output_folder folder Written st).1 = Raise youtube_log_append /\
   st_settings (set_default_output_folder folder Written st).2
   = JDict (<["default_output" := JStr folder]> d) /\
   exists d',
     load_settings home (st_file (set_default_output_folder folder Written st).2)
     = JDict d' /\
     d' !! "default_output" = Some (JStr folder) /\ has_default_keys home (JDict d')) /\
  (forall o, set_ffmpeg_folder "" o st = (Ok tt, st)) /\
  (forall o, set_default_output_folder "" o st = (Ok tt, st)).
Proof.
  intros Hf Hs. unfold set_ffmpeg_folder, set_default_output_folder.
  destruct (set_folder_saved home "ffmpeg_path" folder d st Hf Hs) as (A1 & A2 & _ & A3).
  destruct (set_folder_saved home "default_output" folder d st Hf Hs)
    as (B1 & B2 & _ & B3).
  split_and!; done.
Qed.

Lemma settings_menu_stores_folder_witness :
  (set_ffmpeg_folder "/opt/ffmpeg/bin" Written sample_store).1 = Raise youtube_log_append /\
  exists d',
    load_settings "/home/u/Downloads"
      (st_file (set_ffmpeg_folder "/opt/ffmpeg/bin" Written sample_store).2) = JDict d' /\
    d' !! "ffmpeg_path" = Some (JStr "/opt/ffmpeg/bin") /\
    has_default_keys "/home/u/Downloads" (JDict d').
Proof.
  destruct (settings_menu_stores_folder "/home/u/Downloads" "/opt/ffmpeg/bin" _
              sample_store eq_refl eq_refl) as [(H1 & _ & H2) _].
  split; [exact H1|exact H2].
Defined.

(** When the settings in memory are not a dictionary (what [load_settings]
    returns for a file that holds the list of the key names), the menu
    action raises TypeError and neither the settings nor the file change. *)
Lemma settings_menu_on_list (folder : string) (o : WriteOutcome) (st : Store) :
  PyStr.truthy folder = true ->
  st_settings st = key_names ->
  set_ffmpeg_folder folder o st
  = (Raise (TypeError "list indices must be integers or slices, not str"), st).
Proof.
  intros Hf Hs. unfold set_ffmpeg_folder, set_folder. by rewrite Hf, Hs.
Qed.

(** ** The progress hook *)

Lemma emitted_nil (w : World) : emitted w [] = w.
Proof. destruct w. unfold emitted. cbn. by rewrite app_nil_r. Qed.

Lemma emit_run (ev : Event) (w : World) : emit ev w = (Ok tt, emitted w [ev]).
Proof. reflexivity. Qed.

Lemma emitted_app (w : World) (l1 l2 : list Event) :
  emitted (emitted w l1) l2 = emitted w (l1 ++ l2).
Proof. unfold emitted. cbn. by rewrite app_assoc. Qed.

Lemma emit_twice (a b : Event) (w : World) :
  bind (emit a) (fun _ => emit b) w = (Ok tt, emitted w [a; b]).
Proof. unfold bind. rewrite emit_run, emit_run. by rewrite emitted_app. Qed.

(** The run of the hook on a status dictionary on which it does not raise. *)
Lemma p_hook_run (env : Env) (em : Emitter) (d : HookDict) (w : World) :
  hook_raises d = false ->
  p_hook env em d w = (Ok tt, emitted w (hook_events env d)).
Proof.
  unfold hook_raises, hook_events, status_is, p_hook, log_emit, progress_emit. intros Hd.
  destruct (hd_status d) as [| |s]; try by rewrite emitted_nil.
  destruct (String.eqb s "downloading") eqn:Hs.
  { apply String.eqb_eq in Hs as ->. cbn [andb] in Hd.
    destruct (hd_percent_str d); try discriminate;
      cbn [hook_get format_value default from_option id];
      case_match; apply emit_twice. }
  destruct (String.eqb s "finished") eqn:Hf.
  { apply String.eqb_eq in Hf as ->. apply emit_twice. }
  repeat case_match; subst; try by rewrite emitted_nil.
  all: first [ by rewrite String.eqb_refl in Hs | by rewrite String.eqb_refl in Hf ].
Qed.

(** X3.  The progress hook raises on one kind of status dictionary, and
    only there: a download in progress whose percentage is [None]; the
    exception is the [AttributeError] of [strip], and nothing was emitted.
    On every other dictionary it returns and touches nothing but the events:
    it emits at most two, every percentage it emits is 0, 100 or a text that
    [float] accepts (a text it rejects is reported as 0), and for a status
    other than downloading and finished it emits nothing. *)
Theorem p_hook_outcomes (env : Env) (em : Emitter) (d : HookDict) (w : World) :
  (hook_raises d = true /\
   p_hook env em d w
   = (Raise (AttributeError "'NoneType' object has no attribute 'strip'"), w)) \/
  (hook_raises d = false /\
   exists evs,
     p_hook env em d w = (Ok tt, emitted w evs) /\
     (length evs <= 2)%nat /\
     (forall p, Progress p ∈ evs ->
        p = PctLit 0 \/ p = PctLit 100 \/
        exists s, p = PctFloat s /\ float_ok env s = true) /\
     (status_is d "downloading" = false -> status_is d "finished" = false -> evs = [])).
Proof.
  destruct (hook_raises d) eqn:Hd; [left|right]; split; try done.
  - by apply p_hook_raises.
  - exists (hook_events env d). split; [by apply p_hook_run|].
    unfold hook_events.
    destruct (status_is d "downloading") eqn:Hs; [|destruct (status_is d "finished")].
    + split_and!; [cbn; lia| |done].
      intros p [[= ->]|Hp%list_elem_of_singleton]%elem_of_cons; [|done].
      destruct (float_ok env _) eqn:Hfl; eauto.
    + split_and!; [cbn; lia| |done].
      intros p [[= ->]|Hp%list_elem_of_singleton]%elem_of_cons; [eauto|done].
    + split_and!; [cbn; lia| |done].
      intros p Hp. by apply elem_of_nil in Hp.
Qed.

Example p_hook_on_None :
  p_hook Sample.env Sample.em (mkHookDict (HStr "downloading") HNone HAbsent) empty_world
  = (Raise (AttributeError "'NoneType' object has no attribute 'strip'"), empty_world) /\
  p_hook Sample.env Sample.em (mkHookDict (HStr "downloading") HAbsent HNone) empty_world
  = (Ok tt, emitted empty_world [Progress (PctFloat "0"); LogLine "Downloading: None "]).
Proof. split; reflexivity. Qed.

(** ** The options common to every download *)

(** X4.  Whatever the target format, the options keep the output template
    under the output directory, allow playlists and switch the certificate
    check off; the cookie file is passed exactly when one is given and is not
    empty, the hook exactly when there is an emitter, and the ffmpeg location
    is always set (to the setting, or to None when it is empty). *)
Theorem build_ydl_opts_common (env : Env) (outdir fmt : string)
    (emitter : option Emitter) (cookiefile : option string) :
  build_ydl_opts_for_download env outdir fmt emitter cookiefile !! "outtmpl"
  = Some (OStr (OsPath.join outdir "%(uploader)s - %(title)s.%(ext)s")) /\
  build_ydl_opts_for_download env outdir fmt emitter cookiefile !! "noplaylist"
  = Some (OBool false) /\
  build_ydl_opts_for_download env outdir fmt emitter cookiefile !! "nocheckcertificate"
  = Some (OBool true) /\
  build_ydl_opts_for_download env outdir fmt emitter cookiefile !! "cookiefile"
  = match cookiefile with
    | Some c => if PyStr.truthy c then Some (OStr c) else None
    | None => None
    end /\
  build_ydl_opts_for_download env outdir fmt emitter cookiefile !! "progress_hooks"
  = match emitter with
    | Some em => Some (OList [OHook em])
    | None => None
    end /\
  build_ydl_opts_for_download env outdir fmt emitter cookiefile !! "ffmpeg_location"
  = Some (ffmpeg_location env).
Proof.
  unfold build_ydl_opts_for_download.
  destruct emitter as [em|], cookiefile as [c|];
    try destruct (PyStr.truthy c);
    destruct (String.eqb fmt "mp3"); try destruct (String.eqb fmt "mp4");
    split_and!; vm_compute; reflexivity.
Qed.

Lemma build_ydl_opts_ffmpeg_location (env : Env) (outdir fmt : string)
    (emitter : option Emitter) (cookiefile : option string) :
  build_ydl_opts_for_download env outdir fmt emitter cookiefile !! "ffmpeg_location"
  = Some (ffmpeg_location env).
Proof.
  unfold build_ydl_opts_for_download.
  destruct emitter as [em|], cookiefile as [c|];
    try destruct (PyStr.truthy c);
    destruct (String.eqb fmt "mp3"); try destruct (String.eqb fmt "mp4");
    vm_compute; reflexivity.
Qed.

(** X5.  What [yt_download] hands to yt-dlp holds no None: filtering keeps
    every other entry as it is, and the ffmpeg location is there exactly
    when the setting is not empty. *)
Theorem yt_download_options_without_None (env : Env) (outdir fmt : string)
    (emitter : option Emitter) (cookiefile : option string) :
  (forall k,
     drop_None (build_ydl_opts_for_download env outdir fmt emitter cookiefile) !! k
     <> Some ONone) /\
  (forall k v,
     is_None v = false ->
     build_ydl_opts_for_download env outdir fmt emitter cookiefile !! k = Some v ->
     drop_None (build_ydl_opts_for_download env outdir fmt emitter cookiefile) !! k
     = Some v) /\
  drop_None (build_ydl_opts_for_download env outdir fmt emitter cookiefile)
    !! "ffmpeg_location"
  = if PyStr.truthy (settings_get env "ffmpeg_path")
    then Some (OStr (settings_get env "ffmpeg_path")) else None.
Proof.
  unfold drop_None. split_and!.
  - intros k [_ H]%map_lookup_filter_Some. discriminate H.
  - intros k v Hv Hk. by apply map_lookup_filter_Some.
  - pose proof (build_ydl_opts_ffmpeg_location env outdir fmt emitter cookiefile) as Hloc.
    unfold ffmpeg_location in Hloc.
    destruct (PyStr.truthy (settings_get env "ffmpeg_path")).
    + by apply map_lookup_filter_Some.
    + apply map_lookup_filter_None. right. intros v Hv HP.
      rewrite Hloc in Hv. injection Hv as <-. discriminate HP.
Qed.

(** ** The ffmpeg executable *)


Example ffmpeg_exec_windows : ffmpeg_exec env_bare = "C:\ffmpeg\bin\ffmpeg.exe".
Proof. reflexivity. Qed.

(** ** What a conversion does, adapter by adapter *)

(** X7.  Without Pillow, every conversion of an image ends with the message
    that Pillow is not installed, whatever the target (a document target
    with pypandoc present included); only the raster-image adapter is
    entered and nothing is written. *)
Theorem image_without_pillow (env : Env) (infile outfile target_format : string)
    (emitter : option Emitter) (w : World) :
  mime_startswith (guess_type env infile) "image" = true ->
  Image env = None ->
  (convert_generic env infile outfile target_format emitter w).1
  = Ok "❌ Conversion error: Pillow is not installed (pip install Pillow)" /\
  invoked (convert_generic env infile outfile target_format emitter w).2
  = (invoked w ++ [RasterImage])%list /\
  outputs (convert_generic env infile outfile target_format emitter w).2 = outputs w.
Proof.
  intros Hmime Hpil.
  unfold convert_generic, try_except, bind. rewrite Hmime.
  unfold convert_image_with_pillow, bind. rewrite Hpil.
  by destruct emitter.
Qed.

Lemma image_without_pillow_witness :
  (convert_generic Sample.env_no_pillow "photo.png" "dir/photo.pdf" "pdf" None
                   empty_world).1
  = Ok "❌ Conversion error: Pillow is not installed (pip install Pillow)" /\
  invoked (convert_generic Sample.env_no_pillow "photo.png" "dir/photo.pdf" "pdf" None
                           empty_world).2 = [RasterImage] /\
  outputs (convert_generic Sample.env_no_pillow "photo.png" "dir/photo.pdf" "pdf" None
                           empty_world).2 = [].
Proof.
  exact (image_without_pillow Sample.env_no_pillow "photo.png" "dir/photo.pdf" "pdf"
           None empty_world eq_refl eq_refl).
Defined.



(** X9.  A source that is not an image, with a target in the document list
    (in any letter case) and pypandoc present, is converted by pypandoc and
    by nothing else; pypandoc is given the target as it was typed, not in
    lower case. *)
Theorem conversion_by_pandoc (env : Env) (infile outfile target_format : string)
    (emitter : option Emitter) (w : World)
    (convert_file : string -> string -> string -> option Exception) :
  mime_startswith (guess_type env infile) "image" = false ->
  PyStr.in_tuple (PyStr.lower target_format) document_targets = true ->
  pypandoc env = Some convert_file ->
  (convert_generic env infile outfile target_format emitter w).1
  = match convert_file infile target_format outfile with
    | None => Ok ("✅ Converted to " +:+ target_format)
    | Some e => Ok ("❌ Conversion error: " +:+ exc_str e)
    end /\
  invoked (convert_generic env infile outfile target_format emitter w).2
  = (invoked w ++ [Document])%list /\
  outputs (convert_generic env infile outfile target_format emitter w).2
  = match convert_file infile target_format outfile with
    | None => (outputs w ++ [(outfile, PandocFile infile target_format)])%list
    | Some e => outputs w
    end.
Proof.
  intros Hmime Hdoc Hpan.
  unfold convert_generic, try_except, bind. rewrite Hmime, Hdoc, Hpan.
  cbn [andb]. rewrite bool_decide_eq_true_2 by eauto.
  unfold convert_document_with_pandoc, bind, check. rewrite Hpan.
  destruct emitter; cbn; by destruct (convert_file _ _ _).
Qed.

Lemma conversion_by_pandoc_witness :
  (convert_generic Sample.env "data.bin" "dir/data.PDF" "PDF" None empty_world).1
  = Ok "✅ Converted to PDF" /\
  invoked (convert_generic Sample.env "data.bin" "dir/data.PDF" "PDF" None
                           empty_world).2 = [Document] /\
  outputs (convert_generic Sample.env "data.bin" "dir/data.PDF" "PDF" None empty_world).2
  = [("dir/data.PDF", PandocFile "data.bin" "PDF")].
Proof.
  exact (conversion_by_pandoc Sample.env "data.bin" "dir/data.PDF" "PDF" None empty_world
           (fun _ _ _ => None) eq_refl eq_refl eq_refl).
Defined.

(** X10.  For a target other than ico, jpg and jpeg, the raster-image
    adapter saves the source as it is after its conversion to RGBA, alpha
    band included, under the format name that is the target in upper case;
    a source that Pillow cannot open fails the job with Pillow's error
    before anything is saved. *)
Theorem image_other_formats (env : Env) (pil : Pillow)
    (infile outfile target_format : string) (emitter : option Emitter) (w : World) :
  mime_startswith (guess_type env infile) "image" = true ->
  Image env = Some pil ->
  PyStr.in_tuple (PyStr.lower target_format) ["ico"; "jpg"; "jpeg"] = false ->
  (convert_generic env infile outfile target_format emitter w).1
  = match open_error pil infile "RGBA" with
    | Some e => Ok ("❌ Conversion error: " +:+ exc_str e)
    | None =>
        match save_error pil (ImOpen infile "RGBA") outfile
                         (PyStr.upper (PyStr.lower target_format)) [] with
        | Some e => Ok ("❌ Conversion error: " +:+ exc_str e)
        | None => Ok ("✅ Converted to " +:+ target_format)
        end
    end /\
  outputs (convert_generic env infile outfile target_format emitter w).2
  = match open_error pil infile "RGBA" with
    | Some e => outputs w
    | None =>
        match save_error pil (ImOpen infile "RGBA") outfile
                         (PyStr.upper (PyStr.lower target_format)) [] with
        | Some e => outputs w
        | None =>
            (outputs w ++ [(outfile,
                            PillowFile (PyStr.upper (PyStr.lower target_format))
                                       (ImOpen infile "RGBA") [])])%list
        end
    end.
Proof.
  intros Hmime Hpil Hfmt.
  assert (Hico : String.eqb (PyStr.lower target_format) "ico" = false).
  { unfold PyStr.in_tuple in Hfmt. cbn [existsb] in Hfmt.
    by apply orb_false_elim in Hfmt as [-> _]. }
  assert (Hjpg : PyStr.in_tuple (PyStr.lower target_format) ["jpg"; "jpeg"] = false).
  { unfold PyStr.in_tuple in *. cbn [existsb] in *.
    by apply orb_false_elim in Hfmt as [_ ->]. }
  unfold convert_generic, try_except, bind. rewrite Hmime.
  unfold convert_image_with_pillow, bind. rewrite Hpil, Hico, Hjpg.
  cbn [andb]. unfold save, bind, check.
  destruct emitter; cbn;
    destruct (open_error pil infile "RGBA"); cbn; try done;
    by destruct (save_error pil _ outfile _ []).
Qed.

Lemma image_other_formats_witness :
  (convert_generic Sample.env "photo.png" "dir/photo.webp" "WebP" None empty_world).1
  = Ok "✅ Converted to WebP" /\
  outputs (convert_generic Sample.env "photo.png" "dir/photo.webp" "WebP" None
                           empty_world).2
  = [("dir/photo.webp", PillowFile "WEBP" (ImOpen "photo.png" "RGBA") [])].
Proof.
  exact (image_other_formats Sample.env Sample.pillow "photo.png" "dir/photo.webp" "WebP"
           None empty_world eq_refl eq_refl eq_refl).
Defined.

(** ** The events and the outputs of a conversion *)

(** The two ways a conversion with an emitter can end. *)
Lemma convert_generic_run (env : Env) (infile outfile target_format : string)
    (em : Emitter) (w : World) :
  exists adapter,
    (exists artifact,
       convert_generic env infile outfile target_format (Some em) w
       = (Ok ("✅ Converted to " +:+ target_format),
          mkWorld (events w ++ [LogLine ("Converting " +:+ OsPath.basename infile +:+ " → "
                                         +:+ OsPath.basename outfile);
                                LogLine ("✅ Converted: " +:+ outfile)])
                  (invoked w ++ [adapter])
                  (outputs w ++ [(outfile, artifact)])
                  (stdout w) (threads w) (gui_log w)))
    \/ (exists e,
          convert_generic env infile outfile target_format (Some em) w
          = (Ok ("❌ Conversion error: " +:+ exc_str e),
             mkWorld (events w ++ [LogLine ("Converting " +:+ OsPath.basename infile
                                            +:+ " → " +:+ OsPath.basename outfile);
                                   LogLine ("❌ Conversion error: " +:+ exc_str e)])
                     (invoked w ++ [adapter])
                     (outputs w) (stdout w) (threads w) (gui_log w))).
Proof.
  unfold convert_generic, try_except, bind, if_emitter, log_emit.
  unfold convert_image_with_pillow, convert_document_with_pandoc,
    convert_with_ffmpeg_cmd, save, save_ico, bind, check, enter, write_file, emit, ret,
    raise.
  cbn [events invoked outputs stdout threads gui_log].
  repeat case_match; simplify_eq;
    cbn [events invoked outputs stdout threads gui_log];
    rewrite <- ?app_assoc; cbn [app];
    eexists; first [ left; eexists; reflexivity | right; eexists; reflexivity ].
Qed.


(** X12.  The events of a conversion job are always the same seven, in this
    order: the starting line, 0, the announcing line, the line of success or
    of failure, 80, the returned message, 100.  The job returns the message
    of [convert_generic]; on failure that message is emitted twice. *)
Theorem conversion_job_events (env : Env) (infile outfile target : string)
    (em : Emitter) (w : World) :
  exists line msg,
    (convert_generic_wrapper env infile outfile target (Some em) w).1 = Ok msg /\
    events (convert_generic_wrapper env infile outfile target (Some em) w).2
    = (events w ++
       [ LogLine ("Starting conversion: " +:+ OsPath.basename infile +:+ " → "
                  +:+ OsPath.basename outfile);
         Progress (PctLit 0);
         LogLine ("Converting " +:+ OsPath.basename infile +:+ " → "
                  +:+ OsPath.basename outfile);
         LogLine line;
         Progress (PctLit 80);
         LogLine msg;
         Progress (PctLit 100) ])%list /\
    ((msg = "✅ Converted to " +:+ target /\ line = "✅ Converted: " +:+ outfile)
     \/ (exists e, msg = "❌ Conversion error: " +:+ exc_str e /\ line = msg)).
Proof.
  destruct (convert_generic_wrapper_trace env infile outfile target em w)
    as (res & w1 & Hrun & ->).
  destruct (convert_generic_run env infile outfile target em
              (emitted w [LogLine ("Starting conversion: " +:+ OsPath.basename infile
                                   +:+ " → " +:+ OsPath.basename outfile);
                          Progress (PctLit 0)]))
    as [adapter [[artifact Hcg]|[e Hcg]]];
    rewrite Hcg in Hrun; injection Hrun as <- <-;
    cbn [fst snd emitted events]; rewrite <- !app_assoc; cbn [app].
  - eexists _, _. split_and!; [reflexivity|reflexivity|]. by left.
  - eexists _, _. split_and!; [reflexivity|reflexivity|]. right. eauto.
Qed.

(** ** Jobs of the Instagram tab *)

(** X13.  The Instagram worker never raises.  It returns the message Done
    after a saved line and 100, or the error message after the error line
    and 0. *)
Theorem insta_worker_outcomes (env : Env) (u o : string) (c : option string)
    (em : Emitter) (w : World) :
  (exists fn evs,
     (insta_worker env u o c em w).1 = Ok "✅ Done" /\
     events (insta_worker env u o c em w).2
     = (evs ++ [LogLine ("Saved: " +:+ fn); Progress (PctLit 100)])%list)
  \/ (exists e evs,
        (insta_worker env u o c em w).1 = Ok ("❌ Error: " +:+ exc_str e) /\
        events (insta_worker env u o c em w).2
        = (evs ++ [LogLine ("❌ Error: " +:+ exc_str e); Progress (PctLit 0)])%list).
Proof.
  unfold insta_worker, try_except.
  match goal with |- context [match ?b w with _ => _ end] => set (body := b) end.
  destruct (body w) as [[a|e] w'] eqn:Hb.
  - left. subst body.
    apply bind_Ok in Hb as (? & w1 & _ & Hb).
    apply bind_Ok in Hb as (fn & w2 & _ & Hb).
    apply bind_Ok in Hb as (? & w3 & Hlog & Hb).
    apply bind_Ok in Hb as (? & w4 & Hpro & Hb).
    apply ret_Ok in Hb as [<- <-].
    exists fn, (events w2). split; [done|].
    cbn in Hlog, Hpro. injection Hlog as _ <-. injection Hpro as _ <-.
    cbn. by rewrite <- app_assoc.
  - right. exists e, (events w'). split; [done|].
    cbn. by rewrite <- app_assoc.
Qed.

(** [bool(s.strip())] *)
Lemma truthy_strip (s : string) :
  PyStr.truthy (PyStr.strip s) = negb (PyStr.all_space s).
Proof.
  destruct (PyStr.all_space s) eqn:Hs.
  - by rewrite strip_all_space.
  - destruct (PyStr.strip s) eqn:Hst; [|done].
    apply strip_empty_iff in Hst. congruence.
Qed.

(** X14.  The Instagram entry point appends its own line to the log of the
    tab and starts nothing when the URL field is blank (by the white space
    of Unicode).  Otherwise it looks for the output folder: the field when
    it is not blank, or else the default of the settings, or else the
    working directory; it starts one job with this folder, or raises, with
    nothing started, when [settings] has no [get] or the working directory
    is needed and gone. *)
Theorem start_insta_download_runs (env : Env) (host : Host) (self : MainApp)
    (w : World) :
  start_insta_download env host self w =
    if PyStr.all_space (insta_url self) then
      (Ok tt, mkWorld (events w) (invoked w) (outputs w) (stdout w) (threads w)
                      (gui_log w ++ [(Instagram, "❌ Paste an Instagram URL.")]))
    else if negb (PyStr.all_space (insta_out self)) then
      start_thread (insta_job self (PyStr.strip (insta_out self))) w
    else
      match settings_get_error host with
      | Some e => (Raise e, w)
      | None =>
          if PyStr.truthy (settings_get env "default_output") then
            start_thread (insta_job self (settings_get env "default_output")) w
          else
            match getcwd_error host with
            | Some e => (Raise e, w)
            | None => start_thread (insta_job self (getcwd env)) w
            end
      end.
Proof.
  unfold start_insta_download, download_dir, insta_job, or_None, run_threaded.
  rewrite !truthy_strip.
  destruct (PyStr.all_space (insta_url self)); [done|].
  cbn [negb]. unfold bind, external.
  destruct (PyStr.all_space (insta_out self)), (PyStr.all_space (insta_cookie self));
    cbn [negb]; try done;
    destruct (settings_get_error host); try done;
    destruct (PyStr.truthy (settings_get env "default_output")); try done;
    by destruct (getcwd_error host).
Qed.

Example start_insta_download_ex :
  start_insta_download Sample.env sound insta_form empty_world
  = (Ok tt, mkWorld [] [] [] []
              [Tinsta_worker "https://www.instagram.com/p/x/" "/home/u/Downloads" None
                             (mkEmitter Instagram)] []).
Proof. reflexivity. Qed.

(** ** More on submitting a conversion *)

(** X15.  An input field that is blank, or names no existing file, makes
    the entry point append its own line to the log of the tab and start
    nothing. *)
Theorem start_conversion_invalid_input (env : Env) (self : MainApp) (w : World) :
  PyStr.all_space (conv_input self) = true
  \/ isfile env (PyStr.strip (conv_input self)) = false ->
  start_conversion env self w =
    (Ok tt, mkWorld (events w) (invoked w) (outputs w) (stdout w) (threads w)
                    (gui_log w ++ [(Converter, "❌ Select a valid input file.")])).
Proof.
  intros [Hblank|Hfile]; unfold start_conversion.
  - by rewrite strip_all_space.
  - rewrite Hfile. by rewrite orb_true_r.
Qed.

Lemma start_conversion_invalid_input_witness :
  start_conversion Sample.env blank_url_form empty_world =
    (Ok tt, mkWorld [] [] [] [] [] [(Converter, "❌ Select a valid input file.")]).
Proof.
  apply (start_conversion_invalid_input Sample.env blank_url_form empty_world).
  left. reflexivity.
Defined.

(** X16.  With the output folder left blank, the output goes to the folder
    of the input file: the job's output path is the directory of the input,
    a slash (unless the directory ends with one) and [<base>.<target>]. *)
Theorem start_conversion_same_folder (env : Env) (self : MainApp) (w : World) :
  PyStr.all_space (conv_out self) = true ->
  isfile env (PyStr.strip (conv_input self)) = true ->
  PyStr.truthy (OsPath.dirname (PyStr.strip (conv_input self))) = true ->
  start_conversion env self w =
    (Ok tt, mkWorld (events w) (invoked w) (outputs w) (stdout w)
                    (threads w ++
                     [Tconvert_generic_wrapper
                        (PyStr.strip (conv_input self))
                        (if PyStr.endswith_char
                              (OsPath.dirname (PyStr.strip (conv_input self))) OsPath.sep
                         then OsPath.dirname (PyStr.strip (conv_input self))
                              +:+ derived_name (PyStr.strip (conv_input self))
                                               (PyStr.strip (conv_format self))
                         else OsPath.dirname (PyStr.strip (conv_input self)) +:+ "/"
                              +:+ derived_name (PyStr.strip (conv_input self))
                                               (PyStr.strip (conv_format self)))
                        (PyStr.strip (conv_format self))
                        (mkEmitter Converter)])
                    (gui_log w)).
Proof.
  intros Hout Hfile Hdir.
  assert (Hin : PyStr.truthy (PyStr.strip (conv_input self)) = true).
  { destruct (PyStr.strip (conv_input self)); [discriminate Hdir|done]. }
  unfold start_conversion. rewrite Hin, Hfile. cbn [negb orb].
  rewrite (strip_all_space _ Hout). cbn [PyStr.truthy]. rewrite Hdir.
  rewrite join_relative.
  - by rewrite Hdir.
  - apply no_sep_not_absolute, splitext_root_no_sep, basename_no_sep.
Qed.

Lemma start_conversion_same_folder_witness :
  start_conversion env_home same_folder_form empty_world =
    (Ok tt, mkWorld [] [] [] []
                    [Tconvert_generic_wrapper "/home/u/clip.mp4" "/home/u/clip.mp3" "mp3"
                                              (mkEmitter Converter)] []).
Proof.
  exact (start_conversion_same_folder env_home same_folder_form empty_world
           eq_refl eq_refl eq_refl).
Defined.

(** X17.  With the output folder left blank and an input file named without
    a directory, the output folder is the default of the settings, as it is
    (an empty one puts the output in the working directory); with no such
    setting the entry point raises TypeError and starts nothing. *)
Theorem start_conversion_bare_name (env : Env) (self : MainApp) (w : World) :
  PyStr.all_space (conv_out self) = true ->
  PyStr.truthy (PyStr.strip (conv_input self)) = true ->
  isfile env (PyStr.strip (conv_input self)) = true ->
  OsPath.dirname (PyStr.strip (conv_input self)) = "" ->
  start_conversion env self w =
    match settings env !! "default_output" with
    | None =>
        (Raise (TypeError "expected str, bytes or os.PathLike object, not NoneType"), w)
    | Some folder =>
        (Ok tt, mkWorld (events w) (invoked w) (outputs w) (stdout w)
                        (threads w ++
                         [Tconvert_generic_wrapper
                            (PyStr.strip (conv_input self))
                            (OsPath.join folder
                               (derived_name (PyStr.strip (conv_input self))
                                             (PyStr.strip (conv_format self))))
                            (PyStr.strip (conv_format self))
                            (mkEmitter Converter)])
                        (gui_log w))
    end.
Proof.
  intros Hout Hin Hfile Hdir.
  unfold start_conversion. rewrite Hin, Hfile. cbn [negb orb].
  rewrite (strip_all_space _ Hout), Hdir. cbn [PyStr.truthy].
  by destruct (settings env !! "default_output").
Qed.

Lemma start_conversion_bare_name_witness :
  start_conversion env_bare bare_form empty_world =
    (Raise (TypeError "expected str, bytes or os.PathLike object, not NoneType"),
     empty_world).
Proof.
  exact (start_conversion_bare_name env_bare bare_form empty_world
           eq_refl eq_refl eq_refl eq_refl).
Defined.

(** ** Worker threads *)

Lemma insta_worker_returns (env : Env) (u o : string) (c : option string) (em : Emitter) :
  returns (insta_worker env u o c em).
Proof.
  unfold insta_worker. apply returns_try_except. intros e.
  apply returns_bind; [apply returns_emit|intros _].
  apply returns_bind; [apply returns_emit|intros _; apply returns_ret].
Qed.

Lemma convert_generic_wrapper_returns (env : Env) (infile outfile target : string)
    (em : Emitter) :
  returns (convert_generic_wrapper env infile outfile target (Some em)).
Proof.
  intros w.
  destruct (convert_generic_wrapper_trace env infile outfile target em w)
    as (res & w1 & _ & ->).
  by exists res.
Qed.

(** A directory that the lookup found is found again when the job looks
    it up. *)
Lemma download_dir_again (env : Env) (host : Host) (a out : string) :
  download_dir env host a = Ok out -> is_ok (download_dir env host out) = true.
Proof.
  unfold download_dir.
  destruct (PyStr.truthy a) eqn:Ha; [intros [= <-]; by rewrite Ha|].
  destruct (settings_get_error host); [discriminate|].
  destruct (PyStr.truthy (settings_get env "default_output")) eqn:Hd;
    [intros [= <-]; by rewrite Hd|].
  destruct (getcwd_error host); [discriminate|].
  intros [= <-]. by destruct (PyStr.truthy (getcwd env)).
Qed.

Lemma not_started {A} (l : list A) (x : A) : l <> (l ++ [x])%list.
Proof.
  intros H%(f_equal length). rewrite length_app in H. cbn in H. lia.
Qed.

Lemma started_one {A} (l : list A) (x y : A) : (l ++ [x] = l ++ [y])%list -> x = y.
Proof. intros H%app_inv_head. by injection H. Qed.

(** X18.  For every job that an entry point of the window starts, the body
    of the thread ends normally in the world the job left: its exception
    handler is never reached and the line "Background task error" is never
    printed. *)
Theorem window_jobs_never_print (env : Env) (host : Host) (self : MainApp)
    (w0 : World) (t : Target) (w : World) :
  started_by (start_youtube_download env host self) w0 t \/
  started_by (start_conversion env self) w0 t \/
  started_by (start_insta_download env host self) w0 t ->
  wrapper (call env host t) None w = (Ok tt, (call env host t w).2) /\
  stdout (wrapper (call env host t) None w).2 = stdout (call env host t w).2.
Proof.
  intros Hstarted.
  assert (Hret : returns (call env host t)).
  { unfold started_by in Hstarted. destruct Hstarted as [H|[H|H]].
    - unfold start_youtube_download, bind, external, run_threaded in H.
      destruct (download_dir env host _) as [out|e] eqn:Hout;
        [|by apply not_started in H].
      destruct (negb _); [by apply not_started in H|].
      apply started_one in H as <-. cbn [call].
      eapply yt_download_returns, download_dir_again, Hout.
    - unfold start_conversion, run_threaded in H.
      destruct (_ || _); [by apply not_started in H|].
      repeat case_match; try (by apply not_started in H);
        apply started_one in H as <-; apply convert_generic_wrapper_returns.
    - unfold start_insta_download, bind, external, run_threaded in H.
      destruct (negb _); [by apply not_started in H|].
      destruct (download_dir env host _) as [out|e]; [|by apply not_started in H].
      apply started_one in H as <-. apply insta_worker_returns. }
  destruct (Hret w) as [a Ha].
  unfold wrapper, try_except, bind.
  destruct (call env host t w) as [[r|e] w'] eqn:Hc; cbn [fst] in Ha; [|done].
  done.
Qed.

Lemma window_jobs_never_print_witness :
  wrapper (call Sample.env sound
             (Tconvert_generic_wrapper "clip.mp4" "dir/clip.mp3" "mp3"
                                       (mkEmitter Converter)))
          None empty_world
  = (Ok tt,
     (call Sample.env sound
        (Tconvert_generic_wrapper "clip.mp4" "dir/clip.mp3" "mp3" (mkEmitter Converter))
        empty_world).2).
Proof.
  exact (proj1 (window_jobs_never_print Sample.env sound clip_form empty_world _
                  empty_world (or_intror (or_introl eq_refl)))).
Defined.

(** X19.  A conversion job cannot run without an emitter: with [None] the
    first statement of the job raises AttributeError, no adapter is entered
    and nothing is emitted or written; in a thread this comes out as one
    printed line. *)
Theorem conversion_job_needs_emitter (env : Env) (infile outfile target : string)
    (w : World) :
  convert_generic_wrapper env infile outfile target None w
  = (Raise (mkExc "AttributeError" "'NoneType' object has no attribute 'log'"), w) /\
  wrapper (convert_generic_wrapper env infile outfile target None) None w
  = (Ok tt,
     mkWorld (events w) (invoked w) (outputs w)
             (stdout w ++ ["Background task error: 'NoneType' object has no attribute 'log'"])
             (threads w) (gui_log w)).
Proof. split; reflexivity. Qed.

(** ** The suggested formats and the adapters *)

Lemma convert_generic_enters (env : Env) (infile outfile target_format : string)
    (emitter : option Emitter) :
  enters [dispatch (bool_decide (is_Some (pypandoc env)))
                   (classify (guess_type env infile)) target_format]
         (convert_generic env infile outfile target_format emitter).
Proof.
  unfold convert_generic, dispatch. rewrite classify_image.
  apply enters_try_except.
  - apply enters_after_emits.
    { destruct emitter; [apply only_emits_emit|apply only_emits_ret]. }
    apply enters_bind.
    + destruct (mime_startswith _ "image");
        [apply convert_image_with_pillow_enters|].
      destruct (_ && _); [apply convert_document_with_pandoc_enters|].
      destruct (_ || _); apply convert_with_ffmpeg_cmd_enters.
    + intros _. apply enters_bind; [apply enters_if_emitter|intros _; apply enters_ret].
  - intros e. apply enters_bind; [apply enters_if_emitter|intros _; apply enters_ret].
Qed.

(** The suggestions follow the category of the source. *)
Lemma available_formats_by_category (mt : option string) :
  available_formats mt =
    match classify mt with
    | Video => ["mp4"; "mp3"; "wav"; "gif"]
    | Audio => ["mp3"; "wav"; "mp4"]
    | Image_ => ["png"; "jpg"; "ico"; "webp"]
    | Document_ => ["pdf"; "docx"; "txt"; "md"]
    | Unknown => ["mp3"; "mp4"; "png"; "jpg"; "pdf"; "txt"]
    end.
Proof.
  unfold available_formats, classify.
  destruct (mime_startswith mt "video"); [done|].
  destruct (mime_startswith mt "audio"); [done|].
  destruct (mime_startswith mt "image"); [done|].
  destruct mt as [m|]; [|done]. by destruct (_ && _).
Qed.

(** X20.  Every format that the window suggests for a file of a recognised
    type is served by the adapter of that type: the raster-image adapter for
    an image, the audio/video adapter for a video or a sound, and for a
    document the document adapter when pypandoc is present, the audio/video
    adapter when it is not. *)
Theorem suggested_format_adapter (env : Env) (infile outfile target : string)
    (emitter : option Emitter) (w : World) :
  classify (guess_type env infile) <> Unknown ->
  target ∈ available_formats (guess_type env infile) ->
  invoked (convert_generic env infile outfile target emitter w).2
  = (invoked w ++
     [match classify (guess_type env infile) with
      | Document_ =>
          if bool_decide (is_Some (pypandoc env)) then Document else AudioVideo
      | c => adapter_of c
      end])%list.
Proof.
  intros Hknown Hin.
  rewrite (convert_generic_enters env infile outfile target emitter w).
  rewrite available_formats_by_category in Hin.
  do 2 f_equal.
  destruct (classify (guess_type env infile)); [| | | |done];
    repeat (apply elem_of_cons in Hin as [->|Hin]);
    try (by apply elem_of_nil in Hin);
    by destruct (bool_decide (is_Some (pypandoc env))).
Qed.

Lemma suggested_format_adapter_witness :
  invoked (convert_generic Sample.env "photo.png" "dir/photo.webp" "webp" None
                           empty_world).2 = [RasterImage].
Proof.
  apply (suggested_format_adapter Sample.env "photo.png" "dir/photo.webp" "webp" None
           empty_world).
  - discriminate.
  - apply list_elem_of_In. vm_compute. do 3 right. left. reflexivity.
Defined.

(** ** The whole run of a download job *)

Lemma hooks_run (env : Env) (em : Emitter) (reports : list HookDict) (w : World) :
  for_each reports (fun d => for_each [em] (fun em => p_hook env em d)) w
  = (if (hook_trace env reports).2
     then Raise (AttributeError "'NoneType' object has no attribute 'strip'")
     else Ok tt,
     emitted w (hook_trace env reports).1).
Proof.
  revert w. induction reports as [|d reports IH]; intros w.
  - cbn. by rewrite emitted_nil.
  - cbn [for_each hook_trace]. unfold bind at 1. unfold bind at 1.
    destruct (hook_raises d) eqn:Hd.
    + rewrite p_hook_raises by done. cbn [fst snd]. by rewrite emitted_nil.
    + rewrite p_hook_run by done. cbn [ret fst snd]. rewrite IH.
      by rewrite emitted_app.
Qed.

Lemma hooks_of_with_emitter (env : Env) (outdir fmt : string) (em : Emitter)
    (cookiefile : option string) :
  hooks_of (drop_None (build_ydl_opts_for_download env outdir fmt (Some em) cookiefile))
  = [em].
Proof.
  unfold hooks_of, drop_None.
  assert (H : build_ydl_opts_for_download env outdir fmt (Some em) cookiefile
              !! "progress_hooks" = Some (OList [OHook em])).
  { unfold build_ydl_opts_for_download.
    destruct cookiefile as [c|]; try destruct (PyStr.truthy c);
      destruct (String.eqb fmt "mp3"); try destruct (String.eqb fmt "mp4");
      vm_compute; reflexivity. }
  rewrite (proj2 (map_lookup_filter_Some _ _ "progress_hooks" (OList [OHook em])));
    [reflexivity|].
  split; [exact H|reflexivity].
Qed.

(** X21.  The whole run of a download job for a URL that is not blank,
    once its output directory is found.  The request to yt-dlp does not
    depend on the emitter.  The job emits the starting line and 0; when
    [settings] has no [get] it goes on to the error line at once; otherwise
    it enters yt-dlp and emits, for each report of yt-dlp, in order, the
    events of the hook, as far as a report on which the hook raises; then the
    saved line and 100 when nothing raised, or the error line and 0 with the
    exception of the hook or of yt-dlp; it returns the matching message.  (So
    a run that fails after a report of status finished has emitted 100
    before its final 0.) *)
Theorem download_job_run (env : Env) (host : Host) (url outdir dir fmt : string)
    (em : Emitter) (cookiefile : option string) (w : World) :
  PyStr.all_space url = false ->
  download_dir env host outdir = Ok dir ->
  yt_download env host url outdir fmt (Some em) cookiefile w
  = (match download_result env host url dir fmt cookiefile with
     | Ok filename => Ok ("✅ Download complete: " +:+ url)
     | Raise e => Ok ("❌ Error: " +:+ exc_str e)
     end,
     mkWorld
       (events w ++
        [ LogLine ("Starting download: " +:+ url +:+ " → " +:+ dir +:+ " as " +:+ fmt);
          Progress (PctLit 0) ] ++
        match settings_get_error host with
        | Some _ => []
        | None => (hook_trace env (download_answer env url dir fmt cookiefile).1).1
        end ++
        match download_result env host url dir fmt cookiefile with
        | Ok filename => [LogLine ("Saved: " +:+ filename); Progress (PctLit 100)]
        | Raise e => [LogLine ("❌ Error: " +:+ exc_str e); Progress (PctLit 0)]
        end)
       (invoked w ++ match settings_get_error host with
                     | Some _ => []
                     | None => [RemoteFetcher]
                     end)
       (outputs w) (stdout w) (threads w) (gui_log w)).
Proof.
  intros Hurl Hdir.
  unfold yt_download. rewrite blank_test, Hurl.
  rewrite (bind_external_Ok _ _ _ _ Hdir).
  unfold download_result.
  unfold try_except, if_emitter, log_emit, progress_emit.
  unfold bind at 1. rewrite emit_twice.
  unfold bind at 1.
  destruct (settings_get_error host) as [e0|]; cbn [check raise ret].
  { unfold bind at 1. rewrite emit_twice. unfold ret, emitted.
    cbn [events invoked outputs stdout threads gui_log].
    by rewrite <- !app_assoc, !app_nil_r. }
  unfold bind at 1. unfold extract_info.
  rewrite hooks_of_with_emitter, ydl_options_same.
  fold (download_answer env url dir fmt cookiefile).
  destruct (download_answer env url dir fmt cookiefile) as [reports outcome].
  unfold bind at 1. cbn [enter].
  unfold bind at 1. rewrite hooks_run.
  unfold external. cbn [fst snd].
  destruct (hook_trace env reports) as [evs raised]. cbn [fst snd].
  destruct raised; [|destruct outcome as [filename|e]];
    unfold bind at 1; rewrite emit_twice; unfold ret, emitted;
    cbn [events invoked outputs stdout threads gui_log];
    by rewrite <- !app_assoc.
Qed.

Lemma download_job_run_witness :
  yt_download Sample.env sound "http://x" "" "mp3" (Some Sample.em) None empty_world
  = (Ok "✅ Download complete: http://x",
     mkWorld
       [ LogLine "Starting download: http://x → /home/u/Downloads as mp3";
         Progress (PctLit 0);
         Progress (PctFloat "50.0");
         LogLine "Downloading: /out/a.mp4  50.0%";
         Progress (PctLit 100);
         LogLine "Merging/processing...";
         LogLine "Saved: /out/a.mp4";
         Progress (PctLit 100) ]
       [RemoteFetcher] [] [] [] []) /\
  yt_download env_percent_None sound "http://x" "/out" "mp4" (Some Sample.em) None
              empty_world
  = (Ok "❌ Error: 'NoneType' object has no attribute 'strip'",
     mkWorld
       [ LogLine "Starting download: http://x → /out as mp4";
         Progress (PctLit 0);
         LogLine "❌ Error: 'NoneType' object has no attribute 'strip'";
         Progress (PctLit 0) ]
       [RemoteFetcher] [] [] [] []).
Proof.
  split.
  - exact (download_job_run Sample.env sound "http://x" "" "/home/u/Downloads" "mp3"
             Sample.em None empty_world eq_refl eq_refl).
  - exact (download_job_run env_percent_None sound "http://x" "/out" "/out" "mp4"
             Sample.em None empty_world eq_refl eq_refl).
Defined.

(** ** Loading a JSON object *)

(** X22.  Loading a settings file that holds a JSON object returns the
    object with the missing defaults added and nothing else changed: an
    entry that is present is kept whatever its value (an empty string, a
    number, null), and keys that are not settings are kept too. *)
Theorem load_settings_object (home : string) (d : gmap string JVal) :
  load_settings home (Some (Ok (JDict d)))
  = JDict (d ∪ <["ffmpeg_path" := JStr ""]> (<["default_output" := JStr home]> ∅)).
Proof.
  unfold load_settings, DEFAULT_SETTINGS. cbn [fill_defaults py_in py_setitem].
  assert (Hne : forall v, <["ffmpeg_path" := v]> d !! "default_output" = d !! "default_output")
    by (intros v; by rewrite lookup_insert_ne).
  destruct (d !! "ffmpeg_path") as [v1|] eqn:H1; cbn.
  - destruct (d !! "default_output") as [v2|] eqn:H2; cbn; f_equal;
      apply map_eq; intros k; rewrite lookup_union, ?lookup_insert;
      repeat case_decide; subst; rewrite ?H1, ?H2, ?lookup_empty;
      first [ done | by destruct (d !! k) ].
  - rewrite Hne. destruct (d !! "default_output") as [v2|] eqn:H2; cbn; f_equal;
      apply map_eq; intros k; rewrite lookup_union, ?lookup_insert;
      repeat case_decide; subst; rewrite ?H1, ?H2, ?lookup_empty;
      first [ done | by destruct (d !! k) ].
Qed.
